(** * vupi-service: the question submission endpoint of [main.py]

    A shallow embedding of [create_submission] (the handler of
    [POST /questions]), of the pydantic request models and of the
    [questions] table declared by [init_db], followed by the properties of
    the ingestion pipeline.

    Python values are modelled as follows.  [str] is [string] (characters
    above 127 stand for non-ASCII text), [int] is [Z], [bytes] is
    [list byte].  A call that may raise returns a [Result]; the handler
    runs in a state-and-exception monad over the [World] made of the
    storage bucket, the [questions] table and the standard output. *)

From Stdlib Require Import ZArith NArith Bool List Lia.
From Stdlib.Strings Require Import String Ascii Byte.
From Stdlib Require Import DecimalString.
From Stdlib Require DecimalPos DecimalZ Finite.
From Stdlib.Floats Require SpecFloat.
Import ListNotations.

#[local] Open Scope string_scope.
#[local] Open Scope Z_scope.

(* ------------------------------------------------------------------------- *)
(** ** Python values and library functions used by the handler               *)
(* ------------------------------------------------------------------------- *)

(** The Python objects that end up bound to the INSERT statement. *)
#[local] Set Warnings "-register-all".
Inductive pyval : Type :=
| PyStr (s : string)
| PyList (items : list pyval)
| PyTuple (items : list pyval).

(** A [List[str]] as a Python list object. *)
Definition py_strs (l : list string) : pyval := PyList (map PyStr l).

(** Exceptions.  [HTTPException] is FastAPI's; every other exception is kept
    by the text [str(e)] gives, which is all the handler reads of it.
    [Result] is what a block of the handler ends with. *)
Inductive exn : Type :=
| HTTPException (status_code : Z) (detail : string)
| PyError (message : string).

Inductive Result (A : Type) : Type :=
| Ok (a : A)
| Raise (e : exn).
Arguments Ok {A} a.
Arguments Raise {A} e.

(** A call into a library or a collaborator: it returns, or raises an
    exception of the library's own (never an [HTTPException]), kept by its
    text. *)
Inductive Outcome (A : Type) : Type :=
| Returns (a : A)
| Raises (message : string).
Arguments Returns {A} a.
Arguments Raises {A} message.

(** [f"{e}"] for an exception [e]. *)
Definition str_exn (e : exn) : string :=
  match e with
  | PyError m => m
  | HTTPException c d => NilZero.string_of_int (Z.to_int c) ++ ": " ++ d
  end.

(** [f"{n}"] for an [int]. *)
Definition str_int (n : Z) : string := NilZero.string_of_int (Z.to_int n).

(** [str.lower] on the characters of the model: [A-Z] go to [a-z].  (Python
    also lowers capitals outside ASCII; none of them becomes a letter of
    ["image"], so the test of line 126 reads the same.) *)
Definition lower_char (c : ascii) : ascii :=
  let n := N_of_ascii c in
  if ((65 <=? n) && (n <=? 90))%N then ascii_of_N (n + 32) else c.

Fixpoint lower (s : string) : string :=
  match s with
  | EmptyString => EmptyString
  | String c r => String (lower_char c) (lower r)
  end.

(** *** [base64.b64decode(s)] with its defaults ([validate=False])

    The string is first encoded as ASCII ([ValueError] otherwise), then
    handed to [binascii.a2b_base64] in its non-strict mode (as of CPython 3.11): characters
    outside the alphabet are skipped, a pad that completes a quad ends the
    parse, and an incomplete last quad raises [binascii.Error]. *)
Module Base64.

Definition BASE64_PAD : ascii := "="%char.

Definition table_a2b_base64 (c : ascii) : option N :=
  let n := N_of_ascii c in
  (if (65 <=? n) && (n <=? 90) then Some (n - 65)
   else if (97 <=? n) && (n <=? 122) then Some (n - 71)
   else if (48 <=? n) && (n <=? 57) then Some (n + 4)
   else if n =? 43 then Some 62
   else if n =? 47 then Some 63
   else None)%N.

Definition byte_of_N (n : N) : byte :=
  byte_of_ascii (ascii_of_N (n mod 256)).

(** The scanning loop; [bin_data] is the output written so far. *)
Fixpoint a2b_loop (ascii_data : string) (quad_pos leftchar pads : N)
         (bin_data : list byte) : Outcome (list byte) :=
  match ascii_data with
  | EmptyString =>
      if (quad_pos =? 0)%N then Returns bin_data
      else if (quad_pos =? 1)%N then
        Raises
          ("Invalid base64-encoded string: number of data characters ("
           ++ str_int (Z.of_nat (List.length bin_data) / 3 * 4 + 1)
           ++ ") cannot be 1 more than a multiple of 4")
      else Raises "Incorrect padding"
  | String this_ch rest =>
      if Ascii.eqb this_ch BASE64_PAD then
        if (2 <=? quad_pos)%N then
          let pads := (pads + 1)%N in
          if (4 <=? quad_pos + pads)%N then Returns bin_data
          else a2b_loop rest quad_pos leftchar pads bin_data
        else a2b_loop rest quad_pos leftchar pads bin_data
      else
        match table_a2b_base64 this_ch with
        | None => a2b_loop rest quad_pos leftchar pads bin_data
        | Some v =>
            let pads := 0%N in
            if (quad_pos =? 0)%N then
              a2b_loop rest 1%N v pads bin_data
            else if (quad_pos =? 1)%N then
              a2b_loop rest 2%N (N.land v 15) pads
                (bin_data ++ [byte_of_N (N.lor (N.shiftl leftchar 2) (N.shiftr v 4))])
            else if (quad_pos =? 2)%N then
              a2b_loop rest 3%N (N.land v 3) pads
                (bin_data ++ [byte_of_N (N.lor (N.shiftl leftchar 4) (N.shiftr v 2))])
            else
              a2b_loop rest 0%N 0%N pads
                (bin_data ++ [byte_of_N (N.lor (N.shiftl leftchar 6) v)])
        end
  end.

Definition a2b_base64 (data : string) : Outcome (list byte) :=
  a2b_loop data 0%N 0%N 0%N [].

Fixpoint is_ascii (s : string) : bool :=
  match s with
  | EmptyString => true
  | String c r => (N_of_ascii c <? 128)%N && is_ascii r
  end.

Definition b64decode (s : string) : Outcome (list byte) :=
  if is_ascii s then a2b_base64 s
  else Raises "string argument should contain only ASCII characters".

End Base64.

(* ------------------------------------------------------------------------- *)
(** ** Pydantic models (request validation)                                  *)
(* ------------------------------------------------------------------------- *)

Module FilterModel.
Record t : Type := mk {
  materia : list string;
  assunto : list string;
  subAssunto : list string;
  faculdade : string;
  ano : string
}.
End FilterModel.

Module DataItem.
Record t : Type := mk {
  id : Z;
  value : string;
  type : string
}.
End DataItem.

Module Submission.
Record t : Type := mk {
  data : list DataItem.t;
  filter : FilterModel.t
}.
End Submission.

(** [json.loads] turns no more than 4300 digits into an [int] (the
    interpreter's default for [int_max_str_digits]); a longer integer makes
    it raise, and such a body is never handed to validation. *)
Definition int_max_str_digits : nat := 4300.

Definition loadable_int (n : Z) : bool :=
  (String.length (str_int (Z.abs n)) <=? int_max_str_digits)%nat.

(** A request body as [json.loads] returns it: an integer comes with the
    evidence that it could be loaded, a number with a fraction or an
    exponent is a [float]. *)
Inductive json : Type :=
| JNull
| JBool (b : bool)
| JInt (n : Z) (loadable : loadable_int n = true)
| JFloat (x : SpecFloat.spec_float)
| JString (s : string)
| JArray (elements : list json)
| JObject (members : list (string * json)).

(** [json.loads] keeps the last of several members with one name. *)
Fixpoint member (name : string) (members : list (string * json)) : option json :=
  match members with
  | [] => None
  | (k, v) :: rest =>
      match member name rest with
      | Some v' => Some v'
      | None => if String.eqb k name then Some v else None
      end
  end.

Definition option_bind {A B} (o : option A) (f : A -> option B) : option B :=
  match o with Some a => f a | None => None end.

Fixpoint option_all {A B} (f : A -> option B) (l : list A) : option (list B) :=
  match l with
  | [] => Some []
  | x :: r =>
      option_bind (f x) (fun y =>
      option_bind (option_all f r) (fun ys => Some (y :: ys)))
  end.

(** Validation of a body against [Submission].  Which JSON values pydantic
    takes for a field annotated [int] or [str] depends on its version (its
    coercions), so the two scalar validators are parameters; the shape (the
    required fields, the lists, the nested model) is the one the three
    classes declare.  Unknown members are ignored, as pydantic does. *)
Section Validation.

Variable validate_int : json -> option Z.
Variable validate_str : json -> option string.

Definition validate_list {A} (f : json -> option A) (j : json) : option (list A) :=
  match j with
  | JArray elements => option_all f elements
  | _ => None
  end.

Definition field {A} (members : list (string * json)) (name : string)
           (f : json -> option A) : option A :=
  option_bind (member name members) f.

Definition validate_FilterModel (j : json) : option FilterModel.t :=
  match j with
  | JObject m =>
      option_bind (field m "materia" (validate_list validate_str)) (fun materia =>
      option_bind (field m "assunto" (validate_list validate_str)) (fun assunto =>
      option_bind (field m "subAssunto" (validate_list validate_str)) (fun subAssunto =>
      option_bind (field m "faculdade" validate_str) (fun faculdade =>
      option_bind (field m "ano" validate_str) (fun ano =>
      Some (FilterModel.mk materia assunto subAssunto faculdade ano))))))
  | _ => None
  end.

Definition validate_DataItem (j : json) : option DataItem.t :=
  match j with
  | JObject m =>
      option_bind (field m "id" validate_int) (fun id =>
      option_bind (field m "value" validate_str) (fun value =>
      option_bind (field m "type" validate_str) (fun type =>
      Some (DataItem.mk id value type))))
  | _ => None
  end.

Definition validate_Submission (j : json) : option Submission.t :=
  match j with
  | JObject m =>
      option_bind (field m "data" (validate_list validate_DataItem)) (fun data =>
      option_bind (field m "filter" validate_FilterModel) (fun filter =>
      Some (Submission.mk data filter)))
  | _ => None
  end.

End Validation.

(** The validators without coercion: a JSON integer for [int], a JSON
    string for [str]. *)
Definition strict_int (j : json) : option Z :=
  match j with JInt n _ => Some n | _ => None end.

Definition strict_str (j : json) : option string :=
  match j with JString s => Some s | _ => None end.

(* ------------------------------------------------------------------------- *)
(** ** The world outside the handler                                         *)
(* ------------------------------------------------------------------------- *)

(** An entry of [processed_data]: the dict with keys [id], [type], [value]. *)
Module ProcessedItem.
Record t : Type := mk {
  id : Z;
  type : string;
  value : string
}.
End ProcessedItem.

(** The [record] dict.  [question_id] and [data] are built in place; the
    other five entries hold whatever the local variables of lines 116-120
    are bound to, hence [pyval]. *)
Module QuestionRecord.
Record t : Type := mk {
  question_id : string;
  materia : pyval;
  assunto : pyval;
  sub_assunto : pyval;
  faculdade : pyval;
  ano : pyval;
  data : list ProcessedItem.t
}.
End QuestionRecord.

(** A row of [questions] as the table of [init_db] stores it: the serial
    [id], the UUID, three [TEXT[]] columns, two [TEXT] columns and the JSONB
    document [data] (the list that [json.dumps] encodes).  [created_at] is
    left out. *)
Module Row.
Record t : Type := mk {
  id : Z;
  question_id : string;
  materia : list string;
  assunto : list string;
  sub_assunto : list string;
  faculdade : string;
  ano : string;
  data : list ProcessedItem.t
}.
End Row.

(** What PostgreSQL reads of a bound parameter.  psycopg2 writes a [str] as
    a quoted literal, a list as [ARRAY[...]] and a tuple as its members
    between parentheses, separated by commas; one expression between
    parentheses is that expression, several make a row value. *)
#[local] Set Warnings "-register-all".
Inductive sqlval : Type :=
| SqlText (s : string)
| SqlArray (elements : list sqlval)
| SqlRow (fields : list sqlval).

Fixpoint adapt (v : pyval) : sqlval :=
  match v with
  | PyStr s => SqlText s
  | PyList items => SqlArray (map adapt items)
  | PyTuple [item] => adapt item
  | PyTuple items => SqlRow (map adapt items)
  end.

(** What a [TEXT] and a [TEXT[]] column take. *)
Definition as_text (v : sqlval) : option string :=
  match v with
  | SqlText s => Some s
  | _ => None
  end.

Fixpoint all_text (l : list sqlval) : option (list string) :=
  match l with
  | [] => Some []
  | v :: r =>
      match as_text v, all_text r with
      | Some s, Some ss => Some (s :: ss)
      | _, _ => None
      end
  end.

Definition as_text_array (v : sqlval) : option (list string) :=
  match v with
  | SqlArray elements => all_text elements
  | _ => None
  end.

(** The row that the INSERT of lines 167-179 makes of the bound values,
    under the [id] drawn from the sequence, when every value fits its
    column. *)
Definition stored_row (id : Z) (record : QuestionRecord.t) : option Row.t :=
  match as_text_array (adapt (QuestionRecord.materia record)),
        as_text_array (adapt (QuestionRecord.assunto record)),
        as_text_array (adapt (QuestionRecord.sub_assunto record)),
        as_text (adapt (QuestionRecord.faculdade record)),
        as_text (adapt (QuestionRecord.ano record)) with
  | Some materia, Some assunto, Some sub_assunto, Some faculdade, Some ano =>
      Some (Row.mk id (QuestionRecord.question_id record)
                   materia assunto sub_assunto faculdade ano
                   (QuestionRecord.data record))
  | _, _, _, _, _ => None
  end.

Record World : Type := mkWorld {
  (** calls [upload(filename, image_bytes)] received by IMAGE_BUCKET, oldest first *)
  storage : list (string * list byte);
  (** committed rows of [questions], oldest first *)
  questions : list Row.t;
  (** next value of the sequence behind [id SERIAL] *)
  questions_id_seq : Z;
  (** rows inserted by the open transaction of the request's connection *)
  txn : list Row.t;
  (** records printed so far *)
  stdout : list QuestionRecord.t
}.

(** What [upload] hands back when it returns: something truthy, or a falsy
    [res].  No falsy built-in value can be subscripted with ['error'], so
    building the message of line 144 raises; [subscript_error] is the text
    of that exception. *)
Inductive UploadResult : Type :=
| UploadResponse
| FalsyResult (subscript_error : string).

(** The behaviour of the collaborators during one request. *)
Record Env : Type := mkEnv {
  (** [str(uuid.uuid4())] *)
  uuid4 : string;
  (** [supabase_storage.storage.from_(IMAGE_BUCKET).upload(filename, image_bytes)] *)
  upload : string -> list byte -> Outcome UploadResult;
  (** [supabase_storage.storage.from_(IMAGE_BUCKET).get_public_url(filename)] *)
  get_public_url : string -> Outcome string;
  (** a failure of [cursor.execute] other than a constraint violation *)
  execute_fault : option string;
  (** a failure of [db.commit] *)
  commit_fault : option string;
  (** a failure of [cursor.fetchone()["id"]] *)
  fetchone_fault : option string;
  (** a failure of [print] *)
  print_fault : option string;
  (** a failure of [psycopg2.connect] in [get_db] *)
  connect_fault : option string;
  (** a failure of [db.rollback]: the connection is gone *)
  rollback_fault : option string;
  (** the text of the error with which the server refuses a statement (a key
      that is taken, a value that does not fit its column) *)
  refusal : string
}.

(** *** The monad of the handler: state [World], exceptions [exn] *)

Definition M (A : Type) : Type := World -> Result A * World.

Definition ret {A} (a : A) : M A := fun w => (Ok a, w).

Definition raise {A} (e : exn) : M A := fun w => (Raise e, w).

Definition bind {A B} (m : M A) (f : A -> M B) : M B :=
  fun w =>
    match m w with
    | (Ok a, w') => f a w'
    | (Raise e, w') => (Raise e, w')
    end.

(** [try: body  except Exception as e: handler] *)
Definition try_except {A} (body : M A) (handler : exn -> M A) : M A :=
  fun w =>
    match body w with
    | (Ok a, w') => (Ok a, w')
    | (Raise e, w') => handler e w'
    end.

(** [try: body  finally: cleanup] *)
Definition try_finally {A} (body : M A) (cleanup : M unit) : M A :=
  fun w =>
    match body w with
    | (r, w') =>
        match cleanup w' with
        | (Ok _, w'') => (r, w'')
        | (Raise e, w'') => (Raise e, w'')
        end
    end.

(** The end of a call, seen from the handler. *)
Definition result_of {A} (o : Outcome A) : Result A :=
  match o with
  | Returns a => Ok a
  | Raises m => Raise (PyError m)
  end.

(** A call that leaves the world alone. *)
Definition call {A} (o : Outcome A) : M A := fun w => (result_of o, w).

Declare Scope py_scope.
Delimit Scope py_scope with py.
Notation "x <- m ;; k" := (bind m (fun x => k))
  (at level 61, m at next level, right associativity) : py_scope.
Notation "m ;; k" := (bind m (fun _ => k))
  (at level 61, right associativity) : py_scope.
#[local] Open Scope py_scope.

(** [for x in l: st = body(x, st)] *)
Fixpoint for_each {A S} (l : list A) (body : A -> S -> M S) (st : S) : M S :=
  match l with
  | [] => ret st
  | x :: r => st' <- body x st ;; for_each r body st'
  end.

(** *** The object store client *)

Definition storage_upload (env : Env) (filename : string) (image_bytes : list byte)
  : M UploadResult :=
  fun w =>
    (result_of (upload env filename image_bytes),
     mkWorld (storage w ++ [(filename, image_bytes)]) (questions w)
             (questions_id_seq w) (txn w) (stdout w)).

Definition storage_get_public_url (env : Env) (filename : string) : M string :=
  call (get_public_url env filename).

(** *** The connection and its cursor

    The table is the one [init_db] creates: [id SERIAL PRIMARY KEY] and
    [question_id UUID UNIQUE NOT NULL].  The INSERT draws [id] from the
    sequence and is refused when either key is already taken, or when a
    bound value does not fit its column; the text of the server's error is
    the collaborators' [refusal]. *)

Definition key_taken (id : Z) (question_id : string) (rows : list Row.t) : bool :=
  existsb (fun r => (Row.id r =? id) || String.eqb (Row.question_id r) question_id) rows.

(** [cursor.execute(insert_query, ...)]; the result is the [RETURNING id]
    row the cursor holds. *)
Definition cursor_execute (env : Env) (record : QuestionRecord.t) : M Z :=
  fun w =>
    match execute_fault env with
    | Some m => (Raise (PyError m), w)
    | None =>
        let id := questions_id_seq w in
        match stored_row id record with
        | None => (Raise (PyError (refusal env)), w)
        | Some row =>
            if key_taken id (QuestionRecord.question_id record)
                         (questions w ++ txn w) then
              (Raise (PyError (refusal env)),
               mkWorld (storage w) (questions w) (id + 1) (txn w) (stdout w))
            else
              (Ok id,
               mkWorld (storage w) (questions w) (id + 1)
                       (txn w ++ [row]) (stdout w))
        end
    end.

Definition db_commit (env : Env) : M unit :=
  fun w =>
    match commit_fault env with
    | Some m => (Raise (PyError m), w)
    | None =>
        (Ok tt,
         mkWorld (storage w) (questions w ++ txn w) (questions_id_seq w) [] (stdout w))
    end.

(** [db.rollback()].  It raises when the connection is gone, and then the
    transaction is gone with it. *)
Definition db_rollback (env : Env) : M unit :=
  fun w =>
    (match rollback_fault env with
     | Some m => Raise (PyError m)
     | None => Ok tt
     end,
     mkWorld (storage w) (questions w) (questions_id_seq w) [] (stdout w)).

Definition cursor_fetchone_id (env : Env) (returning : Z) : M Z :=
  match fetchone_fault env with
  | Some m => raise (PyError m)
  | None => ret returning
  end.

Definition cursor_close : M unit := ret tt.

Definition print (env : Env) (record : QuestionRecord.t) : M unit :=
  fun w =>
    match print_fault env with
    | Some m => (Raise (PyError m), w)
    | None =>
        (Ok tt,
         mkWorld (storage w) (questions w) (questions_id_seq w) (txn w)
                 (stdout w ++ [record]))
    end.

(* ------------------------------------------------------------------------- *)
(** ** The endpoint                                                          *)
(* ------------------------------------------------------------------------- *)

(** The dict returned on success. *)
Record Body : Type := mkBody {
  message : string;
  submission_id : Z
}.

(** [item.type.lower() == "image"] *)
Definition is_image (item : DataItem.t) : bool :=
  String.eqb (lower (DataItem.type item)) "image".

(** One turn of the loop of lines 125-152 on the loop variables
    [image_counter] and [processed_data].  ([filename] is assigned before
    each use, so it is local to the turn.) *)
Definition process_item (env : Env) (question_uuid : string) (item : DataItem.t)
           (st : Z * list ProcessedItem.t) : M (Z * list ProcessedItem.t) :=
  let '(image_counter, processed_data) := st in
  if is_image item then
    image_bytes <-
      try_except (call (Base64.b64decode (DataItem.value item)))
        (fun e => raise (HTTPException 400 ("Error decoding image data: " ++ str_exn e))) ;;
    let filename :=
      if image_counter =? 1
      then question_uuid ++ "_" ++ str_int image_counter ++ ".png"
      else question_uuid ++ "_" ++ str_int image_counter ++ ".png" in
    let image_counter := image_counter + 1 in
    try_except
      (res <- storage_upload env filename image_bytes ;;
       match res with
       | UploadResponse => ret tt
       | FalsyResult subscript_error => raise (PyError subscript_error)
       end)
      (fun e => raise (HTTPException 500 ("Error uploading image: " ++ str_exn e))) ;;
    public_url <- storage_get_public_url env filename ;;
    ret (image_counter,
         (processed_data ++
          [ProcessedItem.mk (DataItem.id item) (DataItem.type item) public_url])%list)
  else
    ret (image_counter,
         (processed_data ++
          [ProcessedItem.mk (DataItem.id item) (DataItem.type item)
                            (DataItem.value item)])%list).

(** Lines 166-187: the insert, under [try / except Exception / finally]. *)
Definition insert_record (env : Env) (record : QuestionRecord.t) : M Z :=
  try_finally
    (try_except
       (returning <- cursor_execute env record ;;
        db_commit env ;;
        inserted_id <- cursor_fetchone_id env returning ;;
        print env record ;;
        ret inserted_id)
       (fun e =>
          db_rollback env ;;
          raise (HTTPException 500 ("Error inserting record: " ++ str_exn e))))
    cursor_close.

(** The handler.  The connection [db] is the one [get_db] has opened;
    creating the cursor (line 114) and [cursor.close()] are taken to
    succeed.  The [filename] of line 112 is overwritten before it is
    read. *)
Definition create_submission (env : Env) (submission : Submission.t) : M Body :=
  let question_uuid := uuid4 env in
  (* each of the five assignments of lines 116-120 ends in a comma, so each
     binds a 1-tuple *)
  let materia := PyTuple [py_strs (FilterModel.materia (Submission.filter submission))] in
  let assunto := PyTuple [py_strs (FilterModel.assunto (Submission.filter submission))] in
  let sub_assunto := PyTuple [py_strs (FilterModel.subAssunto (Submission.filter submission))] in
  let faculdade := PyTuple [PyStr (FilterModel.faculdade (Submission.filter submission))] in
  let ano := PyTuple [PyStr (FilterModel.ano (Submission.filter submission))] in
  st <- for_each (Submission.data submission) (process_item env question_uuid) (1, []) ;;
  let processed_data := snd st in
  let record :=
    QuestionRecord.mk question_uuid materia assunto sub_assunto faculdade ano
                      processed_data in
  inserted_id <- insert_record env record ;;
  ret (mkBody "Submission created successfully" inserted_id).

(** *** What FastAPI makes of the handler

    A returned dict is sent as a 200 JSON response; an [HTTPException] as a
    JSON response with its status and [{"detail": detail}]; any other
    exception leaves the handler and the server answers with the plain text
    [Internal Server Error], status 500; so does an exception of the
    dependency [get_db].  A body that fails validation never reaches the
    handler: the application installs no handler of its own for that, so the
    answer is 422 with the list of validation errors under [detail]. *)
Inductive Content : Type :=
| SubmissionCreated (body : Body)
| Detail (detail : string)
| ValidationErrors.

Inductive Response : Type :=
| JSONResponse (status_code : Z) (content : Content)
| PlainTextResponse (status_code : Z) (text : string).

Definition status (r : Response) : Z :=
  match r with
  | JSONResponse c _ => c
  | PlainTextResponse c _ => c
  end.

(** The [detail] string of a response, when it carries one. *)
Definition detail_string (r : Response) : option string :=
  match r with
  | JSONResponse _ (Detail d) => Some d
  | _ => None
  end.

Definition respond (r : Result Body) : Response :=
  match r with
  | Ok body => JSONResponse 200 (SubmissionCreated body)
  | Raise (HTTPException c d) => JSONResponse c (Detail d)
  | Raise (PyError _) => PlainTextResponse 500 "Internal Server Error"
  end.

(** The world that a connection which has just been opened works on: the
    bucket and the table as they are, and a transaction of its own with
    nothing in it.  (Whether the connection opens is [get_db]'s matter.) *)
Definition connect (w : World) : World :=
  mkWorld (storage w) (questions w) (questions_id_seq w) [] (stdout w).

(** [conn.close()], the [finally] of [get_db]: what is not committed is
    lost. *)
Definition close (w : World) : World :=
  mkWorld (storage w) (questions w) (questions_id_seq w) [] (stdout w).

(** [get_db] up to its [yield]: [psycopg2.connect] (lines 40-47) opens the
    connection, or raises. *)
Definition get_db (env : Env) (w : World) : Result World :=
  match connect_fault env with
  | Some m => Raise (PyError m)
  | None => Ok (connect w)
  end.

(** A validated request on the connection [get_db] has opened: the handler
    runs, FastAPI answers, [get_db] closes the connection. *)
Definition handle (env : Env) (submission : Submission.t) (w : World)
  : Response * World :=
  let '(r, w') := create_submission env submission (connect w) in
  (respond r, close w').

(** [POST /questions] on a body that [json.loads] has returned.  FastAPI
    calls the dependency [get_db] before it reports what validation found:
    a connection that cannot be opened is answered first, whatever the body;
    then a body that does not validate is answered 422; otherwise the
    handler is called. *)
Definition post_questions (validate_int : json -> option Z)
           (validate_str : json -> option string)
           (env : Env) (body : json) (w : World) : Response * World :=
  match get_db env w with
  | Raise e => (respond (Raise e), w)
  | Ok w0 =>
      match validate_Submission validate_int validate_str body with
      | None => (JSONResponse 422 ValidationErrors, close w0)
      | Some submission => handle env submission w
      end
  end.

(** *** Vocabulary of the statements *)

(** The object name given to the [n]-th image of a request. *)
Definition object_name (question_uuid : string) (n : Z) : string :=
  question_uuid ++ "_" ++ str_int n ++ ".png".

Definition images (items : list DataItem.t) : list DataItem.t :=
  List.filter is_image items.

(** A non-image item as it is stored. *)
Definition passthrough (item : DataItem.t) : ProcessedItem.t :=
  ProcessedItem.mk (DataItem.id item) (DataItem.type item) (DataItem.value item).

(** The verbatim copy of the filter that the record is meant to hold. *)
Definition verbatim_list (l : list string) : pyval := py_strs l.
Definition verbatim_str (s : string) : pyval := PyStr s.

(** The [record] of lines 155-163 for given [processed_data]. *)
Definition record_of (env : Env) (submission : Submission.t)
           (processed_data : list ProcessedItem.t) : QuestionRecord.t :=
  QuestionRecord.mk (uuid4 env)
    (PyTuple [py_strs (FilterModel.materia (Submission.filter submission))])
    (PyTuple [py_strs (FilterModel.assunto (Submission.filter submission))])
    (PyTuple [py_strs (FilterModel.subAssunto (Submission.filter submission))])
    (PyTuple [PyStr (FilterModel.faculdade (Submission.filter submission))])
    (PyTuple [PyStr (FilterModel.ano (Submission.filter submission))])
    processed_data.

(** The world once the open transaction is gone and the sequence stands at
    [seq], with the committed rows [rows] and the printed records [out]. *)
Definition settled (w : World) (rows : list Row.t) (seq : Z)
           (out : list QuestionRecord.t) : World :=
  mkWorld (storage w) rows seq [] out.

(** The world after the bucket has received the calls [ups]. *)
Definition add_uploads (w : World) (ups : list (string * list byte)) : World :=
  mkWorld (storage w ++ ups) (questions w) (questions_id_seq w) (txn w) (stdout w).

(** The loop in big steps: [processed env u c items out ups] when the items,
    taken with the counter at [c], all go through, leaving the entries
    [out] and the upload calls [ups]. *)
Inductive processed (env : Env) (question_uuid : string)
  : Z -> list DataItem.t -> list ProcessedItem.t -> list (string * list byte) -> Prop :=
| processed_nil c :
    processed env question_uuid c [] [] []
| processed_other c item items out ups :
    is_image item = false ->
    processed env question_uuid c items out ups ->
    processed env question_uuid c (item :: items) (passthrough item :: out) ups
| processed_image c item items out ups image_bytes public_url :
    is_image item = true ->
    Base64.b64decode (DataItem.value item) = Returns image_bytes ->
    upload env (object_name question_uuid c) image_bytes = Returns UploadResponse ->
    get_public_url env (object_name question_uuid c) = Returns public_url ->
    processed env question_uuid (c + 1) items out ups ->
    processed env question_uuid c (item :: items)
      (ProcessedItem.mk (DataItem.id item) (DataItem.type item) public_url :: out)
      ((object_name question_uuid c, image_bytes) :: ups).

(** The exception that leaves the [except] branch of lines 183-185 entered
    for an exception of text [m]: the [HTTPException] of line 185, unless
    [db.rollback()] raises before it. *)
Definition insert_failure (env : Env) (m : string) : exn :=
  match rollback_fault env with
  | Some x => PyError x
  | None => HTTPException 500 ("Error inserting record: " ++ m)
  end.

(** The row under [id] with the UUID of the request, the values of the
    filter and the entries [out]. *)
Definition row_of (env : Env) (submission : Submission.t) (id : Z)
           (out : list ProcessedItem.t) : Row.t :=
  Row.mk id (uuid4 env)
         (FilterModel.materia (Submission.filter submission))
         (FilterModel.assunto (Submission.filter submission))
         (FilterModel.subAssunto (Submission.filter submission))
         (FilterModel.faculdade (Submission.filter submission))
         (FilterModel.ano (Submission.filter submission))
         out.

(** The world in which a request that went through ends. *)
Definition world_after (env : Env) (submission : Submission.t) (w : World)
           (out : list ProcessedItem.t) (ups : list (string * list byte)) : World :=
  mkWorld (storage w ++ ups)
          (questions w ++ [row_of env submission (questions_id_seq w) out])
          (questions_id_seq w + 1) []
          (stdout w ++ [record_of env submission out]).

(** The collaborators of the persistence step all answer, and neither key
    of the new row is taken. *)
Definition persistence_available (env : Env) (w : World) : Prop :=
  execute_fault env = None /\ commit_fault env = None /\
  fetchone_fault env = None /\ print_fault env = None /\
  key_taken (questions_id_seq w) (uuid4 env) (questions w) = false.

(** *** Sample collaborators and requests *)

(** The text of a [UniqueViolation] on [question_id]. *)
Definition refusal_example : string :=
  let quote := String (ascii_of_N 34) EmptyString in
  let newline := String (ascii_of_N 10) EmptyString in
  "duplicate key value violates unique constraint "
  ++ quote ++ "questions_question_id_key" ++ quote ++ newline
  ++ "DETAIL:  Key (question_id)=(3f2b8c1e-0d4a-4e6b-9a57-1c2d3e4f5a6b) already exists."
  ++ newline.

(** A store that takes every object and resolves names under one prefix;
    a database that answers. *)
Definition env_ok : Env :=
  mkEnv "3f2b8c1e-0d4a-4e6b-9a57-1c2d3e4f5a6b"
        (fun _ _ => Returns UploadResponse)
        (fun filename => Returns ("https://store.example/public/" ++ filename))
        None None None None None None refusal_example.

Definition world0 : World := mkWorld [] [] 1 [] [].

Definition filter_example : FilterModel.t :=
  FilterModel.mk ["math"] ["algebra"] [] "X" "2024".

(** The scenario of the specification: one text item, one image. *)
Definition submission_example : Submission.t :=
  Submission.mk
    [DataItem.mk 1 "aGVsbG8=" "text"; DataItem.mk 2 "aGVsbG8=" "image"]
    filter_example.

(** Three images among text items. *)
Definition submission_mixed : Submission.t :=
  Submission.mk
    [DataItem.mk 10 "aGVsbG8=" "IMAGE";
     DataItem.mk 11 "plain words" "text";
     DataItem.mk 12 "aGVsbG8=" "image";
     DataItem.mk 13 "" "note";
     DataItem.mk 14 "aGVsbG8=" "Image"]
    filter_example.

(** Text only. *)
Definition submission_text : Submission.t :=
  Submission.mk
    [DataItem.mk 1 "first" "text"; DataItem.mk 2 "second" "text"]
    filter_example.


(** The store refuses connections: every [upload] raises. *)
Definition env_upload_down : Env :=
  mkEnv (uuid4 env_ok)
        (fun _ _ => Raises "[Errno 111] Connection refused")
        (get_public_url env_ok)
        None None None None None None refusal_example.

(** [upload] works, [get_public_url] raises. *)
Definition env_url_down : Env :=
  mkEnv (uuid4 env_ok)
        (upload env_ok)
        (fun _ => Raises "[Errno 111] Connection refused")
        None None None None None None refusal_example.

(** Everything works up to and including [commit]; reading the returned
    [id] raises. *)
Definition env_fetch_fails : Env :=
  mkEnv (uuid4 env_ok) (upload env_ok) (get_public_url env_ok)
        None None (Some "no results to fetch") None None None refusal_example.

(** Everything works up to and including [fetchone]; the standard output is
    a closed pipe, and [print] raises. *)
Definition env_print_fails : Env :=
  mkEnv (uuid4 env_ok) (upload env_ok) (get_public_url env_ok)
        None None None (Some "[Errno 32] Broken pipe") None None refusal_example.

(** One image that decodes. *)
Definition submission_one_image : Submission.t :=
  Submission.mk [DataItem.mk 1 "aGVsbG8=" "image"] filter_example.

(** An image that decodes, then one that does not. *)
Definition submission_then_bad : Submission.t :=
  Submission.mk
    [DataItem.mk 1 "aGVsbG8=" "image"; DataItem.mk 2 "abc" "image"]
    filter_example.

(** An image whose value has no character of the base64 alphabet. *)
Definition submission_foreign : Submission.t :=
  Submission.mk [DataItem.mk 1 "!!!!" "image"] filter_example.

(** No item at all. *)
Definition submission_empty : Submission.t := Submission.mk [] filter_example.

Definition filter_json : json :=
  JObject [("materia", JArray [JString "math"]);
           ("assunto", JArray [JString "algebra"]);
           ("subAssunto", JArray []);
           ("faculdade", JString "X");
           ("ano", JString "2024")].

(** A body with an empty [data] list. *)
Definition body_empty_data : json :=
  JObject [("data", JArray []); ("filter", filter_json)].

(** A body without [filter]. *)
Definition body_no_filter : json :=
  JObject [("data", JArray [])].

(** A text item and an image that go through, an image that does not
    decode, and one more image. *)
Definition submission_bad_third : Submission.t :=
  Submission.mk
    [DataItem.mk 1 "caption" "text";
     DataItem.mk 2 "aGVsbG8=" "image";
     DataItem.mk 3 "abc" "image";
     DataItem.mk 4 "aGVsbG8=" "image"]
    filter_example.

(* ------------------------------------------------------------------------- *)
(** ** Requests one after another, and further vocabulary                    *)
(* ------------------------------------------------------------------------- *)

(** The endpoint called for each request in turn, every request with the
    collaborators it meets. *)
Fixpoint serve (requests : list (Env * Submission.t)) (w : World)
  : list Response * World :=
  match requests with
  | [] => ([], w)
  | (env, submission) :: rest =>
      let '(r, w1) := handle env submission w in
      let '(rs, w2) := serve rest w1 in
      (r :: rs, w2)
  end.

(** The [submission_id]s handed out by a list of responses. *)
Definition returned_ids (responses : list Response) : list Z :=
  flat_map (fun r =>
              match r with
              | JSONResponse _ (SubmissionCreated body) => [submission_id body]
              | _ => []
              end) responses.

(** Both keys of the table are free of repetition. *)
Definition keys_unique (rows : list Row.t) : Prop :=
  NoDup (map Row.id rows) /\ NoDup (map Row.question_id rows).

(** Every [id] in the table was drawn from the sequence. *)
Definition serial_ahead (w : World) : Prop :=
  Forall (fun r => Row.id r < questions_id_seq w) (questions w).

(** *** Bodies that are not a [Submission]

    A required field is lacking when the object has no member of that name
    or has one of the wrong kind; a list is wrong when the value is not an
    array or one of its elements is wrong. *)
Definition lacks (wrong : json -> Prop) (members : list (string * json))
           (name : string) : Prop :=
  member name members = None \/
  exists j, member name members = Some j /\ wrong j.

Definition not_a_list_of (wrong : json -> Prop) (j : json) : Prop :=
  (forall elements, j <> JArray elements) \/
  exists elements x, j = JArray elements /\ In x elements /\ wrong x.

Section Invalid.

Variable validate_int : json -> option Z.
Variable validate_str : json -> option string.

Definition not_an_int (j : json) : Prop := validate_int j = None.
Definition not_a_str (j : json) : Prop := validate_str j = None.

Definition not_a_DataItem (j : json) : Prop :=
  (forall members, j <> JObject members) \/
  exists members,
    j = JObject members /\
    (lacks not_an_int members "id" \/ lacks not_a_str members "value" \/
     lacks not_a_str members "type").

Definition not_a_FilterModel (j : json) : Prop :=
  (forall members, j <> JObject members) \/
  exists members,
    j = JObject members /\
    (lacks (not_a_list_of not_a_str) members "materia" \/
     lacks (not_a_list_of not_a_str) members "assunto" \/
     lacks (not_a_list_of not_a_str) members "subAssunto" \/
     lacks not_a_str members "faculdade" \/
     lacks not_a_str members "ano").

Definition not_a_Submission (j : json) : Prop :=
  (forall members, j <> JObject members) \/
  exists members,
    j = JObject members /\
    (lacks (not_a_list_of not_a_DataItem) members "data" \/
     lacks not_a_FilterModel members "filter").

End Invalid.

(** The collaborators of [env] with another object store. *)
Definition with_store (env : Env)
           (upload' : string -> list byte -> Outcome UploadResult)
           (get_public_url' : string -> Outcome string) : Env :=
  mkEnv (uuid4 env) upload' get_public_url'
        (execute_fault env) (commit_fault env) (fetchone_fault env) (print_fault env)
        (connect_fault env) (rollback_fault env) (refusal env).

(** [upload] returns [None]. *)
Definition env_upload_none : Env :=
  mkEnv (uuid4 env_ok)
        (fun _ _ => Returns (FalsyResult "'NoneType' object is not subscriptable"))
        (get_public_url env_ok)
        None None None None None None refusal_example.

(** The server drops the connection during [commit]; [rollback] then finds
    it closed. *)
Definition env_commit_fails : Env :=
  mkEnv (uuid4 env_ok) (upload env_ok) (get_public_url env_ok)
        None (Some "server closed the connection unexpectedly") None None
        None (Some "connection already closed") refusal_example.

(** The server cancels the statement ([statement_timeout]); the connection
    stays usable. *)
Definition env_execute_fails : Env :=
  mkEnv (uuid4 env_ok) (upload env_ok) (get_public_url env_ok)
        (Some "canceling statement due to statement timeout") None None None
        None None refusal_example.

(** The database cannot be reached. *)
Definition env_db_down : Env :=
  mkEnv (uuid4 env_ok) (upload env_ok) (get_public_url env_ok)
        None None None None
        (Some "could not connect to server: Connection refused") None refusal_example.

(** The same collaborators drawing another UUID. *)
Definition env_ok2 : Env :=
  mkEnv "9d1c7a52-6b3e-4f80-8e21-5a4b3c2d1e0f" (upload env_ok) (get_public_url env_ok)
        None None None None None None refusal_example.

(* ------------------------------------------------------------------------- *)
(** ** The library functions on examples                                     *)
(* ------------------------------------------------------------------------- *)

Example b64decode_hello :
  Base64.b64decode "aGVsbG8=" = Returns (list_byte_of_string "hello").
Proof. reflexivity. Qed.

Example b64decode_bad_padding :
  Base64.b64decode "abc" = Raises "Incorrect padding".
Proof. reflexivity. Qed.

Example b64decode_one_char :
  Base64.b64decode "a" =
  Raises "Invalid base64-encoded string: number of data characters (1) cannot be 1 more than a multiple of 4".
Proof. reflexivity. Qed.

Example b64decode_skips_foreign_characters :
  Base64.b64decode "!!!!" = Returns [] /\
  Base64.b64decode "aG Vs*bG8=" = Returns (list_byte_of_string "hello").
Proof. split; reflexivity. Qed.

Example lower_Image : lower "ImAgE" = "image".
Proof. reflexivity. Qed.

Example str_int_12 : str_int 12 = "12".
Proof. reflexivity. Qed.

(* ------------------------------------------------------------------------- *)
(** ** One turn of the loop                                                  *)
(* ------------------------------------------------------------------------- *)

Lemma add_uploads_nil w : add_uploads w [] = w.
Proof. destruct w; unfold add_uploads; simpl. now rewrite app_nil_r. Qed.

Lemma add_uploads_app w ups1 ups2 :
  add_uploads (add_uploads w ups1) ups2 = add_uploads w (ups1 ++ ups2).
Proof. unfold add_uploads; simpl. now rewrite app_assoc. Qed.

Lemma process_item_other env u item c acc w :
  is_image item = false ->
  process_item env u item (c, acc) w = (Ok (c, (acc ++ [passthrough item])%list), w).
Proof. intros H. unfold process_item. now rewrite H. Qed.

(** An image item: the four ways the turn can end. *)
Lemma process_item_image env u item c acc w :
  is_image item = true ->
  process_item env u item (c, acc) w =
  match Base64.b64decode (DataItem.value item) with
  | Raises m =>
      (Raise (HTTPException 400 ("Error decoding image data: " ++ m)), w)
  | Returns image_bytes =>
      let w1 := add_uploads w [(object_name u c, image_bytes)] in
      match upload env (object_name u c) image_bytes with
      | Raises m =>
          (Raise (HTTPException 500 ("Error uploading image: " ++ m)), w1)
      | Returns (FalsyResult m) =>
          (Raise (HTTPException 500 ("Error uploading image: " ++ m)), w1)
      | Returns UploadResponse =>
          match get_public_url env (object_name u c) with
          | Raises m => (Raise (PyError m), w1)
          | Returns public_url =>
              (Ok (c + 1,
                   (acc ++ [ProcessedItem.mk (DataItem.id item) (DataItem.type item)
                                             public_url])%list), w1)
          end
      end
  end.
Proof.
  intros H. unfold process_item. rewrite H.
  replace (if c =? 1 then u ++ "_" ++ str_int c ++ ".png"
           else u ++ "_" ++ str_int c ++ ".png")
    with (object_name u c) by (unfold object_name; now destruct (c =? 1)).
  unfold bind, try_except, call, storage_upload, storage_get_public_url, raise, ret,
    add_uploads, result_of.
  destruct (Base64.b64decode (DataItem.value item)) as [image_bytes|e]; [|reflexivity].
  cbn zeta.
  destruct (upload env (object_name u c) image_bytes) as [[|m]|e]; try reflexivity.
  destruct (get_public_url env (object_name u c)); reflexivity.
Qed.

(** The loop over a concatenation runs the second part from where the first
    one ends. *)
Lemma for_each_app {A S} (body : A -> S -> M S) l1 l2 st w :
  for_each (l1 ++ l2) body st w = bind (for_each l1 body st) (for_each l2 body) w.
Proof.
  revert st w. induction l1 as [|x l1 IH]; intros st w; simpl.
  - reflexivity.
  - unfold bind in *.
    destruct (body x st w) as [[st'|e] w']; [apply IH | reflexivity].
Qed.

(* ------------------------------------------------------------------------- *)
(** ** The loop                                                              *)
(* ------------------------------------------------------------------------- *)

Section Loop.

Variable env : Env.
Variable u : string.

(** A run of the loop that ends normally is a derivation of [processed]. *)
Lemma for_each_ok items : forall c acc w st w',
  for_each items (process_item env u) (c, acc) w = (Ok st, w') ->
  exists out ups,
    processed env u c items out ups /\
    st = (c + Z.of_nat (List.length ups), (acc ++ out)%list) /\
    w' = add_uploads w ups.
Proof.
  induction items as [|item items IH]; intros c acc w st w' Hrun.
  - simpl in Hrun. injection Hrun as <- <-.
    exists [], []. rewrite Z.add_0_r, app_nil_r, add_uploads_nil.
    repeat split. constructor.
  - cbn [for_each] in Hrun. unfold bind in Hrun.
    destruct (is_image item) eqn:Himg.
    + rewrite (process_item_image _ _ _ _ _ _ Himg) in Hrun.
      destruct (Base64.b64decode (DataItem.value item)) as [bytes|e] eqn:Hdec;
        [|discriminate].
      cbn zeta in Hrun.
      destruct (upload env (object_name u c) bytes) as [[|m]|e] eqn:Hup;
        try discriminate.
      destruct (get_public_url env (object_name u c)) as [url|e] eqn:Hurl;
        [|discriminate].
      apply IH in Hrun. destruct Hrun as (out & ups & Hp & -> & ->).
      eexists (_ :: out), (_ :: ups). split; [|split].
      * eapply processed_image; eassumption.
      * simpl List.length. rewrite <- app_assoc. simpl. f_equal. lia.
      * rewrite add_uploads_app. reflexivity.
    + rewrite (process_item_other _ _ _ _ _ _ Himg) in Hrun.
      apply IH in Hrun. destruct Hrun as (out & ups & Hp & -> & ->).
      exists (passthrough item :: out), ups. split; [|split].
      * now constructor.
      * rewrite <- app_assoc. reflexivity.
      * reflexivity.
Qed.

(** Conversely a derivation is a run. *)
Lemma processed_run c items out ups :
  processed env u c items out ups ->
  forall acc w,
    for_each items (process_item env u) (c, acc) w =
    (Ok (c + Z.of_nat (List.length ups), (acc ++ out)%list), add_uploads w ups).
Proof.
  induction 1 as [c | c item items out ups Himg _ IH
                 | c item items out ups bytes url Himg Hdec Hup Hurl _ IH];
    intros acc w.
  - simpl. unfold ret. now rewrite Z.add_0_r, app_nil_r, add_uploads_nil.
  - cbn [for_each]. unfold bind. rewrite (process_item_other _ _ _ _ _ _ Himg).
    rewrite IH, <- app_assoc. reflexivity.
  - cbn [for_each]. unfold bind. rewrite (process_item_image _ _ _ _ _ _ Himg).
    rewrite Hdec. cbn zeta. rewrite Hup, Hurl, IH.
    rewrite <- app_assoc, add_uploads_app. simpl. do 2 f_equal. f_equal. lia.
Qed.

(** *** What a derivation says about the entries *)

Lemma processed_length c items out ups :
  processed env u c items out ups -> List.length out = List.length items.
Proof. induction 1; simpl; congruence. Qed.

Lemma processed_ids c items out ups :
  processed env u c items out ups ->
  map ProcessedItem.id out = map DataItem.id items /\
  map ProcessedItem.type out = map DataItem.type items.
Proof. induction 1; simpl; intuition congruence. Qed.

Lemma processed_other_nth c items out ups :
  processed env u c items out ups ->
  forall i item,
    nth_error items i = Some item -> is_image item = false ->
    nth_error out i = Some (passthrough item).
Proof.
  induction 1 as [c | c it items out ups Himg _ IH
                 | c it items out ups bytes url Himg Hdec Hup Hurl _ IH];
    intros [|i] item Hnth Hother; simpl in *; try discriminate.
  - now injection Hnth as ->.
  - eauto.
  - injection Hnth as ->. congruence.
  - eauto.
Qed.

Lemma processed_no_images c items out ups :
  processed env u c items out ups ->
  images items = [] -> out = map passthrough items /\ ups = [].
Proof.
  unfold images.
  induction 1 as [c | c it items out ups Himg _ IH
                 | c it items out ups bytes url Himg Hdec Hup Hurl _ IH];
    simpl; intros Hnone.
  - auto.
  - rewrite Himg in Hnone. destruct (IH Hnone) as [-> ->]. auto.
  - rewrite Himg in Hnone. discriminate.
Qed.

(** *** What a derivation says about the upload calls *)

Lemma processed_upload_count c items out ups :
  processed env u c items out ups ->
  List.length ups = List.length (images items).
Proof.
  unfold images.
  induction 1 as [c | c it items out ups Himg _ IH
                 | c it items out ups bytes url Himg Hdec Hup Hurl _ IH];
    simpl; try rewrite Himg; simpl; congruence.
Qed.

Lemma processed_upload_names c items out ups :
  processed env u c items out ups ->
  map fst ups =
  map (fun n => object_name u (c + Z.of_nat n)) (seq 0 (List.length ups)).
Proof.
  induction 1 as [c | c it items out ups Himg _ IH
                 | c it items out ups bytes url Himg Hdec Hup Hurl _ IH].
  - reflexivity.
  - exact IH.
  - simpl. rewrite Z.add_0_r. f_equal.
    rewrite IH at 1. rewrite <- seq_shift, map_map.
    apply map_ext. intros n. f_equal. lia.
Qed.

Lemma processed_upload_bytes c items out ups :
  processed env u c items out ups ->
  map (fun item => Base64.b64decode (DataItem.value item)) (images items) =
  map (fun call => Returns (snd call)) ups.
Proof.
  unfold images.
  induction 1 as [c | c it items out ups Himg _ IH
                 | c it items out ups bytes url Himg Hdec Hup Hurl _ IH];
    simpl; try rewrite Himg; simpl; congruence.
Qed.

(** The entry of an image item: its number is the count of image items up
    to and including it. *)
Lemma processed_image_nth c items out ups :
  processed env u c items out ups ->
  forall i item,
    nth_error items i = Some item -> is_image item = true ->
    exists image_bytes public_url,
      let name :=
        object_name u (c + Z.of_nat (List.length (images (firstn i items)))) in
      nth_error out i =
        Some (ProcessedItem.mk (DataItem.id item) (DataItem.type item) public_url) /\
      Base64.b64decode (DataItem.value item) = Returns image_bytes /\
      upload env name image_bytes = Returns UploadResponse /\
      get_public_url env name = Returns public_url /\
      In (name, image_bytes) ups.
Proof.
  unfold images.
  induction 1 as [c | c it items out ups Himg _ IH
                 | c it items out ups bytes url Himg Hdec Hup Hurl _ IH];
    intros [|i] item Hnth Hi; simpl in *; try discriminate.
  - injection Hnth as ->. congruence.
  - rewrite Himg. eauto.
  - injection Hnth as ->. exists bytes, url. rewrite Z.add_0_r.
    repeat split; auto.
  - rewrite Himg. simpl List.length.
    destruct (IH i item Hnth Hi) as (b & p & H1 & H2 & H3 & H4 & H5).
    exists b, p.
    replace (c + Z.of_nat (S (List.length (List.filter is_image (firstn i items)))))
      with (c + 1 + Z.of_nat (List.length (List.filter is_image (firstn i items))))
      by lia.
    repeat split; auto.
Qed.

End Loop.

(* ------------------------------------------------------------------------- *)
(** ** The insert                                                            *)
(* ------------------------------------------------------------------------- *)

Lemma all_text_strs l : all_text (map adapt (map PyStr l)) = Some l.
Proof. induction l as [|x l IH]; cbn; [reflexivity|]. now rewrite IH. Qed.

(** The 1-tuples of lines 116-120 are written between parentheses, and what
    the server reads between them is the value of the filter: the row holds
    the filter as it was sent. *)
Lemma stored_row_record_of env submission id out :
  stored_row id (record_of env submission out) = Some (row_of env submission id out).
Proof.
  unfold stored_row, record_of, row_of, py_strs.
  cbn [QuestionRecord.materia QuestionRecord.assunto QuestionRecord.sub_assunto
       QuestionRecord.faculdade QuestionRecord.ano QuestionRecord.question_id
       QuestionRecord.data adapt as_text as_text_array].
  now rewrite !all_text_strs.
Qed.

(** Every way [insert_record] can end.  A failure of [execute] or of
    [commit] leaves the table as it was; a failure after [commit] comes too
    late for [rollback]. *)
Lemma insert_record_unfold env record w :
  insert_record env record w =
  let id := questions_id_seq w in
  match execute_fault env with
  | Some m => (Raise (insert_failure env m), settled w (questions w) id (stdout w))
  | None =>
      match stored_row id record with
      | None => (Raise (insert_failure env (refusal env)), settled w (questions w) id (stdout w))
      | Some row =>
          if key_taken id (QuestionRecord.question_id record) (questions w ++ txn w) then
            (Raise (insert_failure env (refusal env)), settled w (questions w) (id + 1) (stdout w))
          else
            match commit_fault env with
            | Some m => (Raise (insert_failure env m), settled w (questions w) (id + 1) (stdout w))
            | None =>
                let rows := (questions w ++ txn w ++ [row])%list in
                match fetchone_fault env with
                | Some m => (Raise (insert_failure env m), settled w rows (id + 1) (stdout w))
                | None =>
                    match print_fault env with
                    | Some m => (Raise (insert_failure env m), settled w rows (id + 1) (stdout w))
                    | None => (Ok id, settled w rows (id + 1) (stdout w ++ [record]))
                    end
                end
            end
      end
  end.
Proof.
  unfold insert_record, try_finally, try_except, bind, cursor_execute, db_commit,
    cursor_fetchone_id, print, db_rollback, cursor_close, raise, ret, settled,
    insert_failure.
  cbn zeta.
  destruct (execute_fault env); [destruct (rollback_fault env); reflexivity|].
  destruct (stored_row _ _); [|destruct (rollback_fault env); reflexivity].
  destruct (key_taken _ _ _); [destruct (rollback_fault env); reflexivity|].
  destruct (commit_fault env); [destruct (rollback_fault env); reflexivity|].
  destruct (fetchone_fault env); cbn; [destruct (rollback_fault env); reflexivity|].
  destruct (print_fault env); cbn; [destruct (rollback_fault env); reflexivity|].
  reflexivity.
Qed.

Lemma insert_failure_status env m :
  status (respond (Raise (insert_failure env m))) = 500.
Proof. unfold insert_failure. now destruct (rollback_fault env). Qed.

(** The same for the record the handler assembles. *)
Lemma insert_record_cases env submission out w :
  insert_record env (record_of env submission out) w =
  let id := questions_id_seq w in
  match execute_fault env with
  | Some m => (Raise (insert_failure env m), settled w (questions w) id (stdout w))
  | None =>
      if key_taken id (uuid4 env) (questions w ++ txn w) then
        (Raise (insert_failure env (refusal env)), settled w (questions w) (id + 1) (stdout w))
      else
        match commit_fault env with
        | Some m => (Raise (insert_failure env m), settled w (questions w) (id + 1) (stdout w))
        | None =>
            let rows := (questions w ++ txn w ++ [row_of env submission id out])%list in
            match fetchone_fault env with
            | Some m => (Raise (insert_failure env m), settled w rows (id + 1) (stdout w))
            | None =>
                match print_fault env with
                | Some m => (Raise (insert_failure env m), settled w rows (id + 1) (stdout w))
                | None =>
                    (Ok id,
                     settled w rows (id + 1)
                             (stdout w ++ [record_of env submission out]))
                end
            end
        end
  end.
Proof.
  rewrite insert_record_unfold. cbn zeta. rewrite stored_row_record_of. reflexivity.
Qed.

Lemma create_submission_unfold env submission w :
  create_submission env submission w =
  match for_each (Submission.data submission) (process_item env (uuid4 env)) (1, []) w with
  | (Raise e, w1) => (Raise e, w1)
  | (Ok st, w1) =>
      match insert_record env (record_of env submission (snd st)) w1 with
      | (Ok inserted_id, w2) =>
          (Ok (mkBody "Submission created successfully" inserted_id), w2)
      | (Raise e, w2) => (Raise e, w2)
      end
  end.
Proof.
  unfold create_submission, bind, ret, record_of.
  destruct (for_each _ _ _ w) as [[st|e] w1]; reflexivity.
Qed.

(** Whatever the loop does, the world only gains upload calls. *)
Lemma for_each_world env u items : forall st w,
  exists ups,
    snd (for_each items (process_item env u) st w) = add_uploads w ups.
Proof.
  induction items as [|item items IH]; intros [c acc] w.
  - exists []. now rewrite add_uploads_nil.
  - cbn [for_each]. unfold bind.
    destruct (is_image item) eqn:Himg.
    + rewrite (process_item_image _ _ _ _ _ _ Himg).
      destruct (Base64.b64decode (DataItem.value item)) as [bytes|e].
      * cbn zeta.
        destruct (upload env (object_name u c) bytes) as [[|m]|e];
          try (eexists; reflexivity).
        destruct (get_public_url env (object_name u c)) as [url|e];
          try (eexists; reflexivity).
        destruct (IH (c + 1, (acc ++ [ProcessedItem.mk (DataItem.id item)
                        (DataItem.type item) url])%list)
                     (add_uploads w [(object_name u c, bytes)])) as [ups Hups].
        eexists. rewrite Hups, add_uploads_app. reflexivity.
      * exists []. now rewrite add_uploads_nil.
    + rewrite (process_item_other _ _ _ _ _ _ Himg). apply IH.
Qed.

(** The exceptions that leave the loop: the two [HTTPException]s it raises
    itself, or whatever [get_public_url] raised. *)
Lemma for_each_raise env u items : forall st w e w',
  for_each items (process_item env u) st w = (Raise e, w') ->
  (exists x, e = HTTPException 400 ("Error decoding image data: " ++ x)) \/
  (exists x, e = HTTPException 500 ("Error uploading image: " ++ x)) \/
  (exists name m, get_public_url env name = Raises m /\ e = PyError m).
Proof.
  induction items as [|item items IH]; intros [c acc] w e w' Hrun.
  - discriminate.
  - cbn [for_each] in Hrun. unfold bind in Hrun.
    destruct (is_image item) eqn:Himg.
    + rewrite (process_item_image _ _ _ _ _ _ Himg) in Hrun.
      destruct (Base64.b64decode (DataItem.value item)) as [bytes|x].
      * cbn zeta in Hrun.
        destruct (upload env (object_name u c) bytes) as [[|m]|x].
        -- destruct (get_public_url env (object_name u c)) as [url|x] eqn:Hurl.
           ++ eapply IH; eassumption.
           ++ injection Hrun as <- _. right; right. eauto.
        -- injection Hrun as <- _. right; left. now exists m.
        -- injection Hrun as <- _. right; left. now exists x.
      * injection Hrun as <- _. left. now exists x.
    + rewrite (process_item_other _ _ _ _ _ _ Himg) in Hrun.
      eapply IH; eassumption.
Qed.

(* ------------------------------------------------------------------------- *)
(** ** A request from end to end                                             *)
(* ------------------------------------------------------------------------- *)

Lemma key_taken_false id question_id rows :
  key_taken id question_id rows = false ->
  List.filter (fun r => Row.id r =? id) rows = [] /\
  List.filter (fun r => String.eqb (Row.question_id r) question_id) rows = [].
Proof.
  unfold key_taken. induction rows as [|r rows IH]; simpl; intros H; [auto|].
  apply orb_false_elim in H. destruct H as [Hr Hrows].
  apply orb_false_elim in Hr. destruct Hr as [-> ->]. auto.
Qed.

(** When the items go through and the insert does too, the answer is the
    success body. *)
Lemma handle_ok env submission w out ups :
  processed env (uuid4 env) 1 (Submission.data submission) out ups ->
  persistence_available env w ->
  handle env submission w =
  (JSONResponse 200
     (SubmissionCreated (mkBody "Submission created successfully" (questions_id_seq w))),
   world_after env submission w out ups).
Proof.
  intros Hp (He & Hc & Hf & Hpr & Hkey).
  unfold handle. rewrite create_submission_unfold.
  rewrite (processed_run _ _ _ _ _ _ Hp). cbn [snd app].
  rewrite insert_record_cases. cbn zeta.
  rewrite He, Hc, Hf, Hpr. cbn [add_uploads connect questions txn questions_id_seq].
  rewrite app_nil_r. cbn [record_of QuestionRecord.question_id]. rewrite Hkey.
  reflexivity.
Qed.

(** A 200 answer is always of that kind. *)
Lemma handle_200 env submission w :
  status (fst (handle env submission w)) = 200 ->
  exists out ups,
    processed env (uuid4 env) 1 (Submission.data submission) out ups /\
    persistence_available env w /\
    handle env submission w =
    (JSONResponse 200
       (SubmissionCreated (mkBody "Submission created successfully" (questions_id_seq w))),
     world_after env submission w out ups).
Proof.
  intros H200.
  assert (Hrun : exists st w1,
             for_each (Submission.data submission) (process_item env (uuid4 env))
                      (1, []) (connect w) = (Ok st, w1)).
  { unfold handle in H200. rewrite create_submission_unfold in H200.
    destruct (for_each _ _ _ (connect w)) as [[st|e] w1] eqn:Hrun; [eauto|].
    exfalso. apply for_each_raise in Hrun.
    destruct Hrun as [[x ->]|[[x ->]|(name & m & _ & ->)]]; discriminate. }
  destruct Hrun as (st & w1 & Hrun).
  destruct (for_each_ok _ _ _ _ _ _ _ _ Hrun) as (out & ups & Hp & -> & ->).
  exists out, ups. split; [exact Hp|].
  assert (Hav : persistence_available env w).
  { unfold handle in H200. rewrite create_submission_unfold, Hrun in H200.
    cbn [snd app] in H200. rewrite insert_record_cases in H200. cbn zeta in H200.
    cbn [add_uploads connect questions txn questions_id_seq] in H200.
    rewrite app_nil_r in H200. cbn [record_of QuestionRecord.question_id] in H200.
    unfold persistence_available.
    destruct (execute_fault env);
      [cbn [fst] in H200; rewrite insert_failure_status in H200; discriminate|].
    destruct (key_taken _ _ _);
      [cbn [fst] in H200; rewrite insert_failure_status in H200; discriminate|].
    destruct (commit_fault env);
      [cbn [fst] in H200; rewrite insert_failure_status in H200; discriminate|].
    destruct (fetchone_fault env);
      [cbn [fst] in H200; rewrite insert_failure_status in H200; discriminate|].
    destruct (print_fault env);
      [cbn [fst] in H200; rewrite insert_failure_status in H200; discriminate|].
    auto 6. }
  split; [exact Hav|]. now apply handle_ok.
Qed.

(* ------------------------------------------------------------------------- *)
(** ** Upload calls and object names                                         *)
(* ------------------------------------------------------------------------- *)

Lemma seq_names u k :
  map (fun n => object_name u (1 + Z.of_nat n)) (seq 0 k) =
  map (fun n => object_name u (Z.of_nat n)) (seq 1 k).
Proof.
  rewrite <- seq_shift, map_map. apply map_ext. intros n. f_equal. lia.
Qed.

(** C4.  When the loop goes through a submission with [k] image items, the
    request makes exactly [k] upload calls; their object names are
    [{question_id}_1.png] to [{question_id}_k.png], the [j]-th call carries
    the decoded bytes of the [j]-th image item in input order, and the
    counter, which starts at 1, ends at [1 + k]: text items do not move it. *)
Theorem C4_upload_calls_and_names env submission w st w1 :
  for_each (Submission.data submission) (process_item env (uuid4 env)) (1, [])
           (connect w) = (Ok st, w1) ->
  let k := List.length (images (Submission.data submission)) in
  exists ups,
    storage (snd (handle env submission w)) = (storage w ++ ups)%list /\
    List.length ups = k /\
    map fst ups = map (fun n => object_name (uuid4 env) (Z.of_nat n)) (seq 1 k) /\
    map (fun item => Base64.b64decode (DataItem.value item))
        (images (Submission.data submission)) =
      map (fun call => Returns (snd call)) ups /\
    fst st = 1 + Z.of_nat k.
Proof.
  intros Hrun k.
  destruct (for_each_ok _ _ _ _ _ _ _ _ Hrun) as (out & ups & Hp & -> & ->).
  pose proof (processed_upload_count _ _ _ _ _ _ Hp) as Hk.
  exists ups. repeat split.
  - unfold handle. rewrite create_submission_unfold, Hrun.
    rewrite insert_record_cases. cbn zeta.
    destruct (execute_fault env); [reflexivity|].
    destruct (key_taken _ _ _); [reflexivity|].
    destruct (commit_fault env); [reflexivity|].
    destruct (fetchone_fault env); [reflexivity|].
    destruct (print_fault env); reflexivity.
  - exact Hk.
  - rewrite (processed_upload_names _ _ _ _ _ _ Hp), Hk. apply seq_names.
  - exact (processed_upload_bytes _ _ _ _ _ _ Hp).
  - cbn [fst]. fold k. rewrite Hk. reflexivity.
Qed.

Lemma C4_upload_calls_and_names_witness :
  exists st w1,
    for_each (Submission.data submission_mixed) (process_item env_ok (uuid4 env_ok))
             (1, []) (connect world0) = (Ok st, w1) /\
    exists ups,
      storage (snd (handle env_ok submission_mixed world0)) = ([] ++ ups)%list /\
      List.length ups = 3%nat /\
      map fst ups =
        ["3f2b8c1e-0d4a-4e6b-9a57-1c2d3e4f5a6b_1.png";
         "3f2b8c1e-0d4a-4e6b-9a57-1c2d3e4f5a6b_2.png";
         "3f2b8c1e-0d4a-4e6b-9a57-1c2d3e4f5a6b_3.png"] /\
      fst st = 4.
Proof.
  do 2 eexists. split; [vm_compute; reflexivity|].
  edestruct (C4_upload_calls_and_names env_ok submission_mixed world0)
    as (ups & Hs & Hl & Hn & _ & Hc).
  { vm_compute. reflexivity. }
  exists ups. repeat split; assumption.
Defined.

(* ------------------------------------------------------------------------- *)
(** ** The persisted [data]                                                  *)
(* ------------------------------------------------------------------------- *)

(** A request adds at most one row, and only after the loop went through:
    the row holds the record assembled from the entries of the loop. *)
Lemma handle_new_row env submission w row :
  questions (snd (handle env submission w)) = (questions w ++ [row])%list ->
  exists out ups,
    processed env (uuid4 env) 1 (Submission.data submission) out ups /\
    row = row_of env submission (questions_id_seq w) out /\
    storage (snd (handle env submission w)) = (storage w ++ ups)%list.
Proof.
  assert (Hnot : forall l : list Row.t, l <> (l ++ [row])%list).
  { intros l H. apply (f_equal (@List.length _)) in H.
    rewrite length_app in H. simpl in H. lia. }
  assert (Hrow : forall r, (questions w ++ [] ++ [r] = questions w ++ [row])%list ->
                           row = r).
  { intros r H. apply app_inv_head in H. now injection H. }
  unfold handle. rewrite create_submission_unfold.
  destruct (for_each _ _ _ (connect w)) as [[st|e] w1] eqn:Hrun.
  - destruct (for_each_ok _ _ _ _ _ _ _ _ Hrun) as (out & ups & Hp & -> & ->).
    rewrite insert_record_cases. cbn zeta.
    destruct (execute_fault env); [intros H; now destruct (Hnot _ H)|].
    destruct (key_taken _ _ _); [intros H; now destruct (Hnot _ H)|].
    destruct (commit_fault env); [intros H; now destruct (Hnot _ H)|].
    destruct (fetchone_fault env);
      [|destruct (print_fault env)];
      intros H; apply Hrow in H; exists out, ups; auto.
  - pose proof (for_each_world env (uuid4 env) (Submission.data submission)
                  (1, []) (connect w)) as [ups Hw].
    rewrite Hrun in Hw. cbn [snd] in Hw. subst w1.
    intros H. now destruct (Hnot _ H).
Qed.

(** C6.  In a row that a request adds to the table, the entry of every
    image item keeps the item's [id] and [type], and its [value] is the
    string [get_public_url] returned for the object name under which the
    item's decoded bytes were uploaded (the name numbered by the item's rank
    among the image items): it comes from the store, not from the submitted
    base64 text. *)
Theorem C6_image_value_is_public_url env submission w row :
  questions (snd (handle env submission w)) = (questions w ++ [row])%list ->
  forall i item,
    nth_error (Submission.data submission) i = Some item ->
    is_image item = true ->
    exists image_bytes public_url,
      let name :=
        object_name (uuid4 env)
          (1 + Z.of_nat (List.length
                           (images (firstn i (Submission.data submission))))) in
      nth_error (Row.data row) i =
        Some (ProcessedItem.mk (DataItem.id item) (DataItem.type item) public_url) /\
      get_public_url env name = Returns public_url /\
      Base64.b64decode (DataItem.value item) = Returns image_bytes /\
      upload env name image_bytes = Returns UploadResponse /\
      In (name, image_bytes) (storage (snd (handle env submission w))).
Proof.
  intros H i item Hnth Himg.
  destruct (handle_new_row _ _ _ _ H) as (out & ups & Hp & -> & Hs).
  destruct (processed_image_nth _ _ _ _ _ _ Hp i item Hnth Himg)
    as (bytes & url & H1 & H2 & H3 & H4 & H5).
  exists bytes, url. cbn zeta. cbn [Row.data row_of].
  repeat split; try assumption.
  rewrite Hs. apply in_or_app. now right.
Qed.

Lemma C6_image_value_is_public_url_witness :
  exists row,
    questions (snd (handle env_ok submission_example world0)) = ([] ++ [row])%list /\
    nth_error (Submission.data submission_example) 1 =
      Some (DataItem.mk 2 "aGVsbG8=" "image") /\
    is_image (DataItem.mk 2 "aGVsbG8=" "image") = true /\
    nth_error (Row.data row) 1 =
      Some (ProcessedItem.mk 2 "image"
              "https://store.example/public/3f2b8c1e-0d4a-4e6b-9a57-1c2d3e4f5a6b_1.png").
Proof.
  eexists. split; [vm_compute; reflexivity|].
  split; [reflexivity|]. split; [reflexivity|].
  edestruct (C6_image_value_is_public_url env_ok submission_example world0)
    as (bytes & url & Hnth & Hurl & _).
  - vm_compute. reflexivity.
  - exact (eq_refl : nth_error (Submission.data submission_example) 1 = Some _).
  - reflexivity.
  - vm_compute in Hurl. injection Hurl as <-. exact Hnth.
Defined.

(** C7.  The [data] of a row that a request adds to the table has as many
    entries as the submission has items, in the same order with the same
    [id] and [type]; the entry of an item that is not an image is the item
    itself, and when no item is an image the whole of [data] is the input. *)
Theorem C7_data_preserves_items env submission w row :
  questions (snd (handle env submission w)) = (questions w ++ [row])%list ->
  let items := Submission.data submission in
  let data := Row.data row in
  List.length data = List.length items /\
  map ProcessedItem.id data = map DataItem.id items /\
  map ProcessedItem.type data = map DataItem.type items /\
  (forall i item,
      nth_error items i = Some item -> is_image item = false ->
      nth_error data i = Some (passthrough item)) /\
  (images items = [] -> data = map passthrough items).
Proof.
  intros H. destruct (handle_new_row _ _ _ _ H) as (out & ups & Hp & -> & _).
  cbn zeta. cbn [Row.data row_of].
  split; [exact (processed_length _ _ _ _ _ _ Hp)|].
  split; [exact (proj1 (processed_ids _ _ _ _ _ _ Hp))|].
  split; [exact (proj2 (processed_ids _ _ _ _ _ _ Hp))|].
  split; [exact (processed_other_nth _ _ _ _ _ _ Hp)|].
  intros Hnone. exact (proj1 (processed_no_images _ _ _ _ _ _ Hp Hnone)).
Qed.

Lemma C7_data_preserves_items_witness :
  exists row,
    questions (snd (handle env_ok submission_text world0)) = ([] ++ [row])%list /\
    images (Submission.data submission_text) = [] /\
    Row.data row =
      [ProcessedItem.mk 1 "text" "first"; ProcessedItem.mk 2 "text" "second"].
Proof.
  eexists. split; [vm_compute; reflexivity|]. split; [reflexivity|].
  edestruct (C7_data_preserves_items env_ok submission_text world0)
    as (_ & _ & _ & _ & Hverbatim).
  - vm_compute. reflexivity.
  - exact (Hverbatim eq_refl).
Defined.

(* ------------------------------------------------------------------------- *)
(** ** The success response and the new row                                  *)
(* ------------------------------------------------------------------------- *)

(** C8.  When the handler returns, the request is answered with status 200
    and the body [{message: "Submission created successfully",
    submission_id}]; the table has gained exactly one row, [submission_id]
    is its [id] and no other row of the table has that [id]; its
    [question_id] is the one UUID drawn for the request and no other row of
    the table has that [question_id]. *)
Theorem C8_success_response_and_row env submission w body w1 :
  create_submission env submission (connect w) = (Ok body, w1) ->
  exists row,
    let rows := questions (snd (handle env submission w)) in
    fst (handle env submission w) = JSONResponse 200 (SubmissionCreated body) /\
    message body = "Submission created successfully" /\
    submission_id body = Row.id row /\
    rows = (questions w ++ [row])%list /\
    Row.question_id row = uuid4 env /\
    List.filter (fun r => Row.id r =? Row.id row) rows = [row] /\
    List.filter (fun r => String.eqb (Row.question_id r) (uuid4 env)) rows = [row].
Proof.
  intros Hret.
  assert (Hh : handle env submission w = (JSONResponse 200 (SubmissionCreated body),
                                         close w1)).
  { unfold handle. now rewrite Hret. }
  assert (H200 : status (fst (handle env submission w)) = 200) by now rewrite Hh.
  destruct (handle_200 _ _ _ H200) as (out & ups & _ & Hav & Hok).
  rewrite Hok in Hh. injection Hh as <- _. rewrite Hok.
  destruct Hav as (_ & _ & _ & _ & Hkey).
  destruct (key_taken_false _ _ _ Hkey) as [Hid Hq].
  exists (row_of env submission (questions_id_seq w) out).
  cbn zeta. cbn [fst snd world_after questions message submission_id].
  do 5 (split; [reflexivity|]).
  rewrite !filter_app. cbn [Row.id row_of]. rewrite Hid, Hq.
  cbn [List.filter Row.id Row.question_id app].
  now rewrite Z.eqb_refl, String.eqb_refl.
Qed.

Lemma C8_success_response_and_row_witness :
  exists body w1,
    create_submission env_ok submission_example (connect world0) = (Ok body, w1) /\
    exists row,
      fst (handle env_ok submission_example world0) =
        JSONResponse 200
          (SubmissionCreated (mkBody "Submission created successfully" 1)) /\
      submission_id body = Row.id row /\
      questions (snd (handle env_ok submission_example world0)) = [row] /\
      Row.question_id row = "3f2b8c1e-0d4a-4e6b-9a57-1c2d3e4f5a6b".
Proof.
  do 2 eexists. split; [vm_compute; reflexivity|].
  edestruct (C8_success_response_and_row env_ok submission_example world0)
    as (row & Hr & _ & Hid & Hq & Hu & _).
  { vm_compute. reflexivity. }
  exists row. repeat split; assumption.
Defined.

(** C10.  A body that validates to a submission without items is accepted:
    the request makes no upload call, and when the connection opens and the
    insert goes through the answer is the 200 success body with the new
    row's [id], the row holding an empty [data]. *)
Theorem C10_empty_data_accepted validate_int validate_str env body submission w :
  validate_Submission validate_int validate_str body = Some submission ->
  Submission.data submission = [] ->
  let result := post_questions validate_int validate_str env body w in
  storage (snd result) = storage w /\
  (connect_fault env = None ->
   persistence_available env w ->
   fst result =
     JSONResponse 200
       (SubmissionCreated
          (mkBody "Submission created successfully" (questions_id_seq w))) /\
   questions (snd result) =
     (questions w ++ [row_of env submission (questions_id_seq w) []])%list /\
   Row.data (row_of env submission (questions_id_seq w) []) = []).
Proof.
  intros Hval Hdata result. subst result. unfold post_questions, get_db.
  destruct (connect_fault env) as [m|]; [split; [reflexivity|discriminate]|].
  rewrite Hval.
  assert (Hp : processed env (uuid4 env) 1 (Submission.data submission) [] []).
  { rewrite Hdata. constructor. }
  split.
  - unfold handle. rewrite create_submission_unfold.
    rewrite (processed_run _ _ _ _ _ _ Hp). rewrite insert_record_cases. cbn zeta.
    destruct (execute_fault env); [apply app_nil_r|].
    destruct (key_taken _ _ _); [apply app_nil_r|].
    destruct (commit_fault env); [apply app_nil_r|].
    destruct (fetchone_fault env); [apply app_nil_r|].
    destruct (print_fault env); apply app_nil_r.
  - intros _ Hav. rewrite (handle_ok _ _ _ _ _ Hp Hav). auto.
Qed.

Lemma C10_empty_data_accepted_witness :
  validate_Submission strict_int strict_str body_empty_data = Some submission_empty /\
  Submission.data submission_empty = [] /\
  connect_fault env_ok = None /\
  persistence_available env_ok world0 /\
  let result := post_questions strict_int strict_str env_ok body_empty_data world0 in
  storage (snd result) = [] /\
  fst result =
    JSONResponse 200 (SubmissionCreated (mkBody "Submission created successfully" 1)) /\
  questions (snd result) =
    [Row.mk 1 "3f2b8c1e-0d4a-4e6b-9a57-1c2d3e4f5a6b" ["math"] ["algebra"] [] "X" "2024" []].
Proof.
  split; [reflexivity|]. split; [reflexivity|]. split; [reflexivity|].
  assert (Hav : persistence_available env_ok world0)
    by (repeat split; reflexivity).
  split; [exact Hav|].
  destruct (C10_empty_data_accepted strict_int strict_str env_ok body_empty_data
              submission_empty world0 eq_refl eq_refl) as [Hs Hok].
  destruct (Hok eq_refl Hav) as (Hr & Hq & _).
  cbn zeta. split; [exact Hs|]. split; [exact Hr|exact Hq].
Defined.

(* ------------------------------------------------------------------------- *)
(** ** Requests that fail                                                    *)
(* ------------------------------------------------------------------------- *)

(** The answer to a failure inside the loop: a 400 or a 500 with a detail
    string, except when [get_public_url] raises, which nothing catches. *)
Lemma loop_failure_response env u items st w e w1 :
  for_each items (process_item env u) st w = (Raise e, w1) ->
  (exists x, respond (Raise e) =
             JSONResponse 400 (Detail ("Error decoding image data: " ++ x))) \/
  (exists x, respond (Raise e) =
             JSONResponse 500 (Detail ("Error uploading image: " ++ x))) \/
  (respond (Raise e) = PlainTextResponse 500 "Internal Server Error" /\
   exists name m, get_public_url env name = Raises m).
Proof.
  intros Hrun. apply for_each_raise in Hrun.
  destruct Hrun as [[x ->]|[[x ->]|(name & m & Hurl & ->)]].
  - left. now exists x.
  - right; left. now exists x.
  - right; right. split; [reflexivity|]. now exists name, m.
Qed.

(** A failure of the insert leaves the [except] branch, and the
    transaction is gone; the table is unchanged unless the failure came
    after [commit]. *)
Lemma insert_record_raise env submission out w e w1 :
  insert_record env (record_of env submission out) w = (Raise e, w1) ->
  (exists x, e = insert_failure env x) /\
  txn w1 = [] /\
  (questions w1 = questions w \/
   commit_fault env = None /\
   (fetchone_fault env <> None \/ print_fault env <> None) /\
   questions w1 =
     (questions w ++ txn w ++ [row_of env submission (questions_id_seq w) out])%list).
Proof.
  rewrite insert_record_cases. cbn zeta.
  destruct (execute_fault env) as [m|].
  { intros [= <- <-]. split; [now exists m|]. auto. }
  destruct (key_taken _ _ _).
  { intros [= <- <-]. split; [eexists; reflexivity|]. auto. }
  destruct (commit_fault env) as [m|].
  { intros [= <- <-]. split; [now exists m|]. auto. }
  destruct (fetchone_fault env) as [m|] eqn:Hf.
  { intros [= <- <-]. split; [now exists m|]. split; [reflexivity|].
    right. repeat split. left. congruence. }
  destruct (print_fault env) as [m|] eqn:Hp; [|discriminate].
  intros [= <- <-]. split; [now exists m|]. split; [reflexivity|].
  right. repeat split. right. congruence.
Qed.

(** A failure of [execute] or of [commit] leaves no row behind. *)
Lemma insert_failure_before_commit env submission out w m :
  execute_fault env = Some m \/ commit_fault env = Some m ->
  exists x w1,
    insert_record env (record_of env submission out) w =
      (Raise (insert_failure env x), w1) /\
    questions w1 = questions w /\ txn w1 = [].
Proof.
  intros H. rewrite insert_record_cases. cbn zeta.
  destruct (execute_fault env) as [m'|]; [eauto|].
  destruct H as [H|H]; [discriminate|].
  destruct (key_taken _ _ _); [eauto|].
  rewrite H. eauto.
Qed.

(** A failure of [fetchone] after a [commit] that went through: the row
    stays. *)
Lemma insert_failure_after_commit env submission out w m :
  execute_fault env = None ->
  key_taken (questions_id_seq w) (uuid4 env) (questions w ++ txn w) = false ->
  commit_fault env = None ->
  fetchone_fault env = Some m ->
  exists w1,
    insert_record env (record_of env submission out) w =
      (Raise (insert_failure env m), w1) /\
    questions w1 =
      (questions w ++ txn w ++ [row_of env submission (questions_id_seq w) out])%list.
Proof.
  intros He Hk Hc Hf. rewrite insert_record_cases. cbn zeta.
  rewrite He, Hk, Hc, Hf. eauto.
Qed.

(** In the [record] dict the five filter entries are 1-tuples around the
    values of the filter, not the values: this is what [print] shows and
    what is bound to the INSERT. *)
Lemma record_fields_wrapped env submission out :
  let f := Submission.filter submission in
  let r := record_of env submission out in
  QuestionRecord.materia r = PyTuple [verbatim_list (FilterModel.materia f)] /\
  QuestionRecord.assunto r = PyTuple [verbatim_list (FilterModel.assunto f)] /\
  QuestionRecord.sub_assunto r = PyTuple [verbatim_list (FilterModel.subAssunto f)] /\
  QuestionRecord.faculdade r = PyTuple [verbatim_str (FilterModel.faculdade f)] /\
  QuestionRecord.ano r = PyTuple [verbatim_str (FilterModel.ano f)] /\
  QuestionRecord.materia r <> verbatim_list (FilterModel.materia f) /\
  QuestionRecord.assunto r <> verbatim_list (FilterModel.assunto f) /\
  QuestionRecord.sub_assunto r <> verbatim_list (FilterModel.subAssunto f) /\
  QuestionRecord.faculdade r <> verbatim_str (FilterModel.faculdade f) /\
  QuestionRecord.ano r <> verbatim_str (FilterModel.ano f).
Proof. cbn. repeat split; discriminate. Qed.

(** C1.  In every row that a request adds to the table, [materia],
    [assunto] and [sub_assunto] are the three lists of strings of the
    filter and [faculdade] and [ano] are its two strings, as they were
    sent: the parentheses that the 1-tuples of lines 116-120 put around the
    bound values leave what the server stores unchanged. *)
Theorem C1_filter_fields_persisted_verbatim env submission w row :
  questions (snd (handle env submission w)) = (questions w ++ [row])%list ->
  let f := Submission.filter submission in
  Row.materia row = FilterModel.materia f /\
  Row.assunto row = FilterModel.assunto f /\
  Row.sub_assunto row = FilterModel.subAssunto f /\
  Row.faculdade row = FilterModel.faculdade f /\
  Row.ano row = FilterModel.ano f.
Proof.
  intros H. destruct (handle_new_row _ _ _ _ H) as (out & ups & _ & -> & _).
  cbn zeta. unfold row_of. repeat split.
Qed.

Lemma C1_filter_fields_persisted_verbatim_witness :
  exists row,
    questions (snd (handle env_ok submission_example world0)) = ([] ++ [row])%list /\
    Row.materia row = ["math"] /\
    Row.assunto row = ["algebra"] /\
    Row.sub_assunto row = [] /\
    Row.faculdade row = "X" /\
    Row.ano row = "2024".
Proof.
  eexists. split; [vm_compute; reflexivity|].
  eapply (C1_filter_fields_persisted_verbatim env_ok submission_example world0).
  vm_compute. reflexivity.
Defined.

(** C5.  With [fetchone] raising after a [commit] that went through, the
    request is answered with the 500 of a failed insert while the row it
    inserted is in the table, which was empty before; the same happens when
    the [print] that follows, inside the same [try], raises. *)
Theorem C5_failure_after_commit_keeps_row :
  questions world0 = [] /\
  fst (handle env_fetch_fails submission_empty world0) =
    JSONResponse 500 (Detail "Error inserting record: no results to fetch") /\
  questions (snd (handle env_fetch_fails submission_empty world0)) =
    [row_of env_fetch_fails submission_empty 1 []] /\
  fst (handle env_print_fails submission_empty world0) =
    JSONResponse 500 (Detail "Error inserting record: [Errno 32] Broken pipe") /\
  questions (snd (handle env_print_fails submission_empty world0)) =
    [row_of env_print_fails submission_empty 1 []].
Proof. repeat split. Qed.

(** C9.  With [get_public_url] raising for an image that was decoded and
    uploaded, the exception leaves the handler: the answer is the server's
    plain [Internal Server Error] and carries no detail. *)
Theorem C9_url_failure_has_no_detail :
  fst (handle env_url_down submission_one_image world0) =
    PlainTextResponse 500 "Internal Server Error" /\
  detail_string (fst (handle env_url_down submission_one_image world0)) = None /\
  storage (snd (handle env_url_down submission_one_image world0)) =
    [("3f2b8c1e-0d4a-4e6b-9a57-1c2d3e4f5a6b_1.png", list_byte_of_string "hello")].
Proof. repeat split. Qed.

(* ------------------------------------------------------------------------- *)
(** ** A value that does not decode                                          *)
(* ------------------------------------------------------------------------- *)

(** C2, as stated, fails: the second item does not decode, yet the request
    is answered with the 500 of the upload that failed before it. *)
Lemma C2_counterexample :
  In (DataItem.mk 2 "abc" "image") (Submission.data submission_then_bad) /\
  is_image (DataItem.mk 2 "abc" "image") = true /\
  Base64.b64decode "abc" = Raises "Incorrect padding" /\
  fst (handle env_upload_down submission_then_bad world0) =
    JSONResponse 500 (Detail "Error uploading image: [Errno 111] Connection refused") /\
  status (fst (handle env_upload_down submission_then_bad world0)) <> 400.
Proof.
  split; [right; left; reflexivity|].
  repeat split. discriminate.
Qed.

(** The decoder skips what is not in the alphabet, so a value made of such
    characters is an empty image: it is uploaded and the request goes
    through. *)
Example foreign_characters_are_uploaded :
  fst (handle env_ok submission_foreign world0) =
    JSONResponse 200 (SubmissionCreated (mkBody "Submission created successfully" 1)) /\
  storage (snd (handle env_ok submission_foreign world0)) =
    [("3f2b8c1e-0d4a-4e6b-9a57-1c2d3e4f5a6b_1.png", [])].
Proof. split; reflexivity. Qed.

(** C2, amended.  When the loop has gone through the items before an image
    item whose value [b64decode] rejects, the request is answered with
    status 400 and the detail [Error decoding image data: ...] carrying the
    decoder's message; the table is unchanged, and the upload calls of the
    request are those of the image items before the failing one, in order,
    under the names numbered from 1: none for the failing item, none for any
    item after it. *)
Theorem C2_decode_failure_aborts env submission w before item after m st w1 :
  Submission.data submission = (before ++ item :: after)%list ->
  is_image item = true ->
  Base64.b64decode (DataItem.value item) = Raises m ->
  for_each before (process_item env (uuid4 env)) (1, []) (connect w) = (Ok st, w1) ->
  let result := handle env submission w in
  exists ups,
    fst result = JSONResponse 400 (Detail ("Error decoding image data: " ++ m)) /\
    questions (snd result) = questions w /\
    storage (snd result) = (storage w ++ ups)%list /\
    List.length ups = List.length (images before) /\
    map fst ups =
      map (fun n => object_name (uuid4 env) (Z.of_nat n))
          (seq 1 (List.length (images before))) /\
    map (fun it => Base64.b64decode (DataItem.value it)) (images before) =
      map (fun call => Returns (snd call)) ups.
Proof.
  intros Hdata Himg Hdec Hrun result. subst result.
  destruct (for_each_ok _ _ _ _ _ _ _ _ Hrun) as (out & ups & Hp & -> & ->).
  pose proof (processed_upload_count _ _ _ _ _ _ Hp) as Hk.
  exists ups.
  assert (Hhandle :
            handle env submission w =
            (JSONResponse 400 (Detail ("Error decoding image data: " ++ m)),
             close (add_uploads (connect w) ups))).
  { unfold handle. rewrite create_submission_unfold, Hdata, for_each_app.
    unfold bind at 1. rewrite Hrun. cbn [for_each]. unfold bind at 1.
    rewrite (process_item_image _ _ _ _ _ _ Himg), Hdec. reflexivity. }
  rewrite Hhandle. cbn [fst snd close add_uploads connect questions storage].
  repeat split.
  - exact Hk.
  - rewrite (processed_upload_names _ _ _ _ _ _ Hp), Hk. apply seq_names.
  - exact (processed_upload_bytes _ _ _ _ _ _ Hp).
Qed.

Lemma C2_decode_failure_aborts_witness :
  Base64.b64decode "abc" = Raises "Incorrect padding" /\
  let result := handle env_ok submission_bad_third world0 in
  fst result = JSONResponse 400 (Detail "Error decoding image data: Incorrect padding") /\
  questions (snd result) = [] /\
  exists ups,
    storage (snd result) = ([] ++ ups)%list /\
    map fst ups = ["3f2b8c1e-0d4a-4e6b-9a57-1c2d3e4f5a6b_1.png"].
Proof.
  split; [reflexivity|].
  edestruct (C2_decode_failure_aborts env_ok submission_bad_third world0
               [DataItem.mk 1 "caption" "text"; DataItem.mk 2 "aGVsbG8=" "image"]
               (DataItem.mk 3 "abc" "image")
               [DataItem.mk 4 "aGVsbG8=" "image"]
               "Incorrect padding")
    as (ups & Hr & Hq & Hs & _ & Hn & _).
  - reflexivity.
  - reflexivity.
  - reflexivity.
  - vm_compute. reflexivity.
  - cbn zeta. split; [exact Hr|]. split; [exact Hq|].
    exists ups. split; [exact Hs|exact Hn].
Defined.

(* ------------------------------------------------------------------------- *)
(** ** A body that does not validate                                         *)
(* ------------------------------------------------------------------------- *)

Lemma option_all_None_iff {A B} (f : A -> option B) l :
  option_all f l = None <-> exists x, In x l /\ f x = None.
Proof.
  induction l as [|y l IH]; cbn [option_all].
  - split; [discriminate|]. now intros (x & [] & _).
  - destruct (f y) eqn:Hy; cbn [option_bind].
    + destruct (option_all f l) eqn:Hl; cbn [option_bind].
      * split; [discriminate|]. intros (x & [<-|Hin] & Hx); [congruence|].
        assert (H : Some l0 = None) by (apply IH; eauto). discriminate H.
      * split; [|reflexivity]. intros _.
        destruct (proj1 IH eq_refl) as (x & Hin & Hx). exists x. split; [now right|auto].
    + split; [|reflexivity]. intros _. exists y. split; [now left|auto].
Qed.

Lemma field_None_iff {A} (f : json -> option A) (wrong : json -> Prop) members name :
  (forall j, f j = None <-> wrong j) ->
  field members name f = None <-> lacks wrong members name.
Proof.
  intros Hf. unfold field, lacks.
  destruct (member name members) as [j|]; cbn [option_bind].
  - rewrite Hf. split; [eauto|]. intros [H|(j' & [= <-] & H)]; [discriminate|auto].
  - split; auto.
Qed.

Lemma validate_list_None_iff {A} (f : json -> option A) (wrong : json -> Prop) j :
  (forall x, f x = None <-> wrong x) ->
  validate_list f j = None <-> not_a_list_of wrong j.
Proof.
  intros Hf. unfold not_a_list_of.
  destruct j; cbn [validate_list];
    try (split; [intros _; left; intros ? [=] | reflexivity]).
  rewrite option_all_None_iff. split.
  - intros (x & Hin & Hx). right. exists elements, x. rewrite <- Hf. auto.
  - intros [H|(l & x & [= <-] & Hin & Hx)]; [now destruct (H elements)|].
    exists x. rewrite Hf. auto.
Qed.

Section InvalidFacts.

Variable validate_int : json -> option Z.
Variable validate_str : json -> option string.

(** A value fails to validate as an item exactly when it is not an object
    or lacks one of [id], [value], [type]. *)
Lemma validate_DataItem_None_iff j :
  validate_DataItem validate_int validate_str j = None <->
  not_a_DataItem validate_int validate_str j.
Proof.
  unfold not_a_DataItem.
  destruct j; cbn [validate_DataItem];
    try (split; [intros _; left; intros ? [=] | reflexivity]).
  pose proof (field_None_iff validate_int (not_an_int validate_int) members "id"
                (fun j => iff_refl _)) as Hid.
  pose proof (field_None_iff validate_str (not_a_str validate_str) members "value"
                (fun j => iff_refl _)) as Hvalue.
  pose proof (field_None_iff validate_str (not_a_str validate_str) members "type"
                (fun j => iff_refl _)) as Htype.
  split.
  - intros H. right. exists members. split; [reflexivity|].
    destruct (field members "id" validate_int); [|left; now apply Hid].
    destruct (field members "value" validate_str); [|right; left; now apply Hvalue].
    destruct (field members "type" validate_str); [discriminate|].
    right; right; now apply Htype.
  - intros [H|(m & [= <-] & H)]; [now destruct (H members)|].
    destruct H as [H|[H|H]].
    + apply Hid in H. now rewrite H.
    + apply Hvalue in H. rewrite H.
      now destruct (field members "id" validate_int).
    + apply Htype in H. rewrite H.
      destruct (field members "id" validate_int); [|reflexivity].
      now destruct (field members "value" validate_str).
Qed.

(** The same for the filter and its five fields. *)
Lemma validate_FilterModel_None_iff j :
  validate_FilterModel validate_str j = None <-> not_a_FilterModel validate_str j.
Proof.
  unfold not_a_FilterModel.
  destruct j; cbn [validate_FilterModel];
    try (split; [intros _; left; intros ? [=] | reflexivity]).
  assert (Hlist : forall name,
             field members name (validate_list validate_str) = None <->
             lacks (not_a_list_of (not_a_str validate_str)) members name).
  { intros name. apply field_None_iff. intros j.
    apply validate_list_None_iff. intros x. apply iff_refl. }
  assert (Hstr : forall name,
             field members name validate_str = None <->
             lacks (not_a_str validate_str) members name).
  { intros name. apply field_None_iff. intros j. apply iff_refl. }
  split.
  - intros H. right. exists members. split; [reflexivity|].
    destruct (field members "materia" _) eqn:H1; [|left; now apply Hlist].
    destruct (field members "assunto" _) eqn:H2; [|right; left; now apply Hlist].
    destruct (field members "subAssunto" _) eqn:H3;
      [|right; right; left; now apply Hlist].
    destruct (field members "faculdade" _) eqn:H4;
      [|right; right; right; left; now apply Hstr].
    destruct (field members "ano" _) eqn:H5; [discriminate|].
    right; right; right; right; now apply Hstr.
  - intros [H|(m & [= <-] & H)]; [now destruct (H members)|].
    destruct H as [H|[H|[H|[H|H]]]];
      [apply Hlist in H|apply Hlist in H|apply Hlist in H|apply Hstr in H|apply Hstr in H];
      rewrite H;
      repeat match goal with
             | |- context [option_bind ?o _] =>
                 match o with
                 | None => fail 1
                 | _ => destruct o; cbn [option_bind]
                 end
             end; reflexivity.
Qed.

(** A body fails to validate exactly when it is not an object, lacks a list
    of items under [data] or lacks a filter under [filter]. *)
Lemma validate_Submission_None_iff j :
  validate_Submission validate_int validate_str j = None <->
  not_a_Submission validate_int validate_str j.
Proof.
  unfold not_a_Submission.
  destruct j; cbn [validate_Submission];
    try (split; [intros _; left; intros ? [=] | reflexivity]).
  assert (Hdata :
            field members "data" (validate_list (validate_DataItem validate_int validate_str))
              = None <->
            lacks (not_a_list_of (not_a_DataItem validate_int validate_str)) members "data").
  { apply field_None_iff. intros j. apply validate_list_None_iff.
    apply validate_DataItem_None_iff. }
  assert (Hfilter :
            field members "filter" (validate_FilterModel validate_str) = None <->
            lacks (not_a_FilterModel validate_str) members "filter").
  { apply field_None_iff. apply validate_FilterModel_None_iff. }
  split.
  - intros H. right. exists members. split; [reflexivity|].
    destruct (field members "data" _) eqn:H1; [|left; now apply Hdata].
    destruct (field members "filter" _) eqn:H2; [discriminate|].
    right. now apply Hfilter.
  - intros [H|(m & [= <-] & H)]; [now destruct (H members)|].
    destruct H as [H|H]; [apply Hdata in H|apply Hfilter in H]; rewrite H;
      [reflexivity|].
    now destruct (field members "data" _).
Qed.

End InvalidFacts.




(* ------------------------------------------------------------------------- *)
(** ** What any request leaves behind                                        *)
(* ------------------------------------------------------------------------- *)

(** However the loop ends, the calls it has made are numbered from the
    counter it started with, and there are no more of them than images. *)
Lemma for_each_partial env u items : forall c acc w,
  exists ups,
    snd (for_each items (process_item env u) (c, acc) w) = add_uploads w ups /\
    map fst ups =
      map (fun n => object_name u (c + Z.of_nat n)) (seq 0 (List.length ups)) /\
    (List.length ups <= List.length (images items))%nat.
Proof.
  unfold images.
  induction items as [|item items IH]; intros c acc w.
  - exists []. rewrite add_uploads_nil. simpl. auto.
  - cbn [for_each List.filter]. unfold bind.
    destruct (is_image item) eqn:Himg.
    + rewrite (process_item_image _ _ _ _ _ _ Himg).
      assert (Hone : forall bytes : list byte,
                 map fst [(object_name u c, bytes)] =
                 map (fun n => object_name u (c + Z.of_nat n)) (seq 0 1)).
      { intros bytes. simpl. now rewrite Z.add_0_r. }
      destruct (Base64.b64decode (DataItem.value item)) as [bytes|m].
      * cbn zeta.
        destruct (upload env (object_name u c) bytes) as [[|m]|m];
          try (exists [(object_name u c, bytes)]; split; [reflexivity|];
               split; [apply Hone | simpl; lia]).
        destruct (get_public_url env (object_name u c)) as [url|m];
          try (exists [(object_name u c, bytes)]; split; [reflexivity|];
               split; [apply Hone | simpl; lia]).
        destruct (IH (c + 1)
                     (acc ++ [ProcessedItem.mk (DataItem.id item)
                                (DataItem.type item) url])%list
                     (add_uploads w [(object_name u c, bytes)]))
          as (ups & Hw & Hn & Hl).
        exists ((object_name u c, bytes) :: ups). split; [|split].
        -- rewrite Hw, add_uploads_app. reflexivity.
        -- simpl. rewrite Z.add_0_r. f_equal. rewrite Hn at 1.
           rewrite <- seq_shift, map_map. apply map_ext. intros n. f_equal. lia.
        -- simpl. lia.
      * exists []. rewrite add_uploads_nil. simpl. split; [reflexivity|].
        split; [reflexivity|lia].
    + rewrite (process_item_other _ _ _ _ _ _ Himg). apply IH.
Qed.

(** The insert touches neither the bucket nor anything but the table, the
    sequence and the standard output; it leaves no transaction open. *)
Lemma insert_record_frame env submission out w :
  let record := record_of env submission out in
  let w' := snd (insert_record env record w) in
  storage w' = storage w /\
  txn w' = [] /\
  questions_id_seq w <= questions_id_seq w' <= questions_id_seq w + 1 /\
  (questions w' = questions w \/
   questions w' =
     (questions w ++ txn w ++ [row_of env submission (questions_id_seq w) out])%list) /\
  (stdout w' = stdout w \/
   fst (insert_record env record w) = Ok (questions_id_seq w) /\
   stdout w' = (stdout w ++ [record])%list).
Proof.
  cbn zeta. rewrite insert_record_cases. cbn zeta.
  destruct (execute_fault env); [cbn; repeat split; auto; lia|].
  destruct (key_taken _ _ _); [cbn; repeat split; auto; lia|].
  destruct (commit_fault env); [cbn; repeat split; auto; lia|].
  destruct (fetchone_fault env); [cbn; repeat split; auto; lia|].
  destruct (print_fault env); cbn; repeat split; auto; lia.
Qed.

(** X1.  A request only ever adds: the upload calls it makes come after those
    the bucket had received, the table keeps its rows and gains at most one,
    the standard output gains at most one record, and the sequence moves
    forward by at most one. *)
Theorem handle_only_appends env submission w :
  let w' := snd (handle env submission w) in
  (exists ups, storage w' = (storage w ++ ups)%list /\
               (List.length ups <= List.length (images (Submission.data submission)))%nat) /\
  (questions w' = questions w \/ exists row, questions w' = (questions w ++ [row])%list) /\
  (stdout w' = stdout w \/ exists r, stdout w' = (stdout w ++ [r])%list) /\
  questions_id_seq w <= questions_id_seq w' <= questions_id_seq w + 1.
Proof.
  cbn zeta. unfold handle. rewrite create_submission_unfold.
  destruct (for_each_partial env (uuid4 env) (Submission.data submission) 1 []
              (connect w)) as (ups & Hw & _ & Hl).
  destruct (for_each _ _ _ (connect w)) as [[st|e] w1]; cbn [snd] in Hw; subst w1.
  - pose proof (insert_record_frame env submission (snd st)
                  (add_uploads (connect w) ups)) as (Hs & _ & Hq & Hr & Ho).
    cbn zeta in *.
    destruct (insert_record _ _ _) as [[id|e] w2]; cbn [snd fst] in *;
      cbn [storage questions stdout questions_id_seq add_uploads connect txn app] in *;
      unfold close; cbn [storage questions stdout questions_id_seq].
    + split; [exists ups; now rewrite Hs|]. split; [destruct Hr; eauto|].
      split; [destruct Ho as [|[_ ?]]; eauto|]. exact Hq.
    + split; [exists ups; now rewrite Hs|]. split; [destruct Hr; eauto|].
      split; [destruct Ho as [|[_ ?]]; eauto|]. exact Hq.
  - cbn. split; [eauto|]. split; [auto|]. split; [auto|]. lia.
Qed.

(** X2.  The handler never ends, by returning or by raising, with an insert
    that is neither committed nor rolled back. *)
Theorem handler_leaves_no_transaction env submission w :
  txn (snd (create_submission env submission (connect w))) = [].
Proof.
  rewrite create_submission_unfold.
  destruct (for_each_partial env (uuid4 env) (Submission.data submission) 1 []
              (connect w)) as (ups & Hw & _).
  destruct (for_each _ _ _ (connect w)) as [[st|e] w1]; cbn [snd] in Hw; subst w1.
  - pose proof (insert_record_frame env submission (snd st)
                  (add_uploads (connect w) ups)) as (_ & Ht & _).
    cbn zeta in Ht. now destruct (insert_record _ _ _) as [[id|e] w2].
  - reflexivity.
Qed.

(** X3.  For a body that [json.loads] has returned, the status of the
    answer is 200, 400, 422 or 500; it is 422 exactly when the connection of
    [get_db] opens and the body does not validate. *)
Theorem post_questions_status validate_int validate_str env body w :
  let s := status (fst (post_questions validate_int validate_str env body w)) in
  (s = 200 \/ s = 400 \/ s = 500 \/ s = 422) /\
  (s = 422 <->
   connect_fault env = None /\
   validate_Submission validate_int validate_str body = None).
Proof.
  cbn zeta. unfold post_questions, get_db.
  destruct (connect_fault env) as [m|].
  { cbn. split; [auto|]. split; [discriminate|]. intros [H _]. discriminate H. }
  destruct (validate_Submission validate_int validate_str body) as [submission|].
  - assert (H : let s := status (fst (handle env submission w)) in
                s = 200 \/ s = 400 \/ s = 500).
    { cbn zeta. unfold handle. rewrite create_submission_unfold.
      destruct (for_each _ _ _ (connect w)) as [[st|e] w1] eqn:Hrun.
      - destruct (insert_record _ _ _) as [[id|e] w2] eqn:Hins; [now left|].
        apply insert_record_raise in Hins. destruct Hins as ([x ->] & _).
        right; right. cbn [fst]. apply insert_failure_status.
      - apply for_each_raise in Hrun.
        destruct Hrun as [[x ->]|[[x ->]|(name & m & _ & ->)]]; cbn; auto. }
    cbn zeta in H. split; [tauto|].
    split; [|intros [_ H']; discriminate H']. intros H'. rewrite H' in H.
    destruct H as [H|[H|H]]; discriminate.
  - cbn. split; [auto|]. split; auto.
Qed.

(** X4.  When an item fails, whatever the failure, nothing reaches the
    database: the table, the sequence and the standard output are as before,
    and the answer is the one FastAPI gives to the exception. *)
Theorem loop_failure_keeps_table env submission w e w1 :
  for_each (Submission.data submission) (process_item env (uuid4 env)) (1, [])
           (connect w) = (Raise e, w1) ->
  let result := handle env submission w in
  fst result = respond (Raise e) /\
  questions (snd result) = questions w /\
  questions_id_seq (snd result) = questions_id_seq w /\
  stdout (snd result) = stdout w /\
  storage (snd result) = storage w1.
Proof.
  intros Hrun. cbn zeta. unfold handle. rewrite create_submission_unfold, Hrun.
  pose proof (for_each_world env (uuid4 env) (Submission.data submission) (1, [])
                (connect w)) as [ups Hw].
  rewrite Hrun in Hw. cbn [snd] in Hw. subst w1. repeat split.
Qed.

Lemma loop_failure_keeps_table_witness :
  exists e w1,
    for_each (Submission.data submission_bad_third) (process_item env_ok (uuid4 env_ok))
             (1, []) (connect world0) = (Raise e, w1) /\
    questions (snd (handle env_ok submission_bad_third world0)) = [] /\
    List.length (storage (snd (handle env_ok submission_bad_third world0))) = 1%nat.
Proof.
  do 2 eexists. split; [vm_compute; reflexivity|].
  edestruct (loop_failure_keeps_table env_ok submission_bad_third world0)
    as (_ & Hq & _ & _ & Hs).
  { vm_compute. reflexivity. }
  split; [exact Hq|]. rewrite Hs. reflexivity.
Defined.

(** X5.  The record is printed when the request is answered 200, and then it
    is the record that the new row stores; otherwise nothing is printed. *)
Theorem record_printed_on_success_only env submission w :
  let result := handle env submission w in
  (status (fst result) = 200 /\
   exists row record,
     questions (snd result) = (questions w ++ [row])%list /\
     stdout (snd result) = (stdout w ++ [record])%list /\
     stored_row (Row.id row) record = Some row) \/
  (status (fst result) <> 200 /\ stdout (snd result) = stdout w).
Proof.
  cbn zeta.
  destruct (Z.eq_dec (status (fst (handle env submission w))) 200) as [H200|Hnot].
  - left. split; [exact H200|].
    destruct (handle_200 _ _ _ H200) as (out & ups & _ & _ & ->).
    exists (row_of env submission (questions_id_seq w) out),
      (record_of env submission out).
    split; [reflexivity|]. split; [reflexivity|]. apply stored_row_record_of.
  - right. split; [exact Hnot|].
    revert Hnot. unfold handle. rewrite create_submission_unfold.
    destruct (for_each_partial env (uuid4 env) (Submission.data submission) 1 []
                (connect w)) as (ups & Hw & _).
    destruct (for_each _ _ _ (connect w)) as [[st|e] w1]; cbn [snd] in Hw; subst w1;
      [|reflexivity].
    pose proof (insert_record_frame env submission (snd st)
                  (add_uploads (connect w) ups)) as (_ & _ & _ & _ & Ho).
    cbn zeta in Ho.
    destruct (insert_record _ _ _) as [[id|e] w2]; cbn [fst snd] in *.
    + intros Hnot. now destruct Hnot.
    + intros _. destruct Ho as [Ho|[Ho _]]; [exact Ho|discriminate].
Qed.

(* ------------------------------------------------------------------------- *)
(** ** Failures of the store and of the insert                               *)
(* ------------------------------------------------------------------------- *)

(** X6.  When the loop has gone through the items before an image whose
    upload raises, or returns a falsy result, the request is answered with
    status 500 and the detail [Error uploading image: ...]; the table is
    unchanged; the failing call is the last the bucket receives, after those
    of the images before it, and the items after it are not looked at. *)
Theorem upload_failure_aborts env submission w before item after image_bytes m st w1 :
  Submission.data submission = (before ++ item :: after)%list ->
  is_image item = true ->
  Base64.b64decode (DataItem.value item) = Returns image_bytes ->
  for_each before (process_item env (uuid4 env)) (1, []) (connect w) = (Ok st, w1) ->
  let name := object_name (uuid4 env) (1 + Z.of_nat (List.length (images before))) in
  upload env name image_bytes = Raises m \/
  upload env name image_bytes = Returns (FalsyResult m) ->
  let result := handle env submission w in
  fst result = JSONResponse 500 (Detail ("Error uploading image: " ++ m)) /\
  questions (snd result) = questions w /\
  storage (snd result) = (storage w1 ++ [(name, image_bytes)])%list /\
  List.length (storage w1) = (List.length (storage w) + List.length (images before))%nat.
Proof.
  intros Hdata Himg Hdec Hrun name Hup result. subst result name.
  destruct (for_each_ok _ _ _ _ _ _ _ _ Hrun) as (out & ups & Hp & -> & ->).
  pose proof (processed_upload_count _ _ _ _ _ _ Hp) as Hk. rewrite <- Hk in Hup.
  assert (Hhandle :
            handle env submission w =
            (JSONResponse 500 (Detail ("Error uploading image: " ++ m)),
             close (add_uploads (add_uploads (connect w) ups)
                      [(object_name (uuid4 env) (1 + Z.of_nat (List.length ups)),
                        image_bytes)]))).
  { unfold handle. rewrite create_submission_unfold, Hdata, for_each_app.
    unfold bind at 1. rewrite Hrun. cbn [for_each]. unfold bind at 1.
    rewrite (process_item_image _ _ _ _ _ _ Himg), Hdec. cbn zeta.
    destruct Hup as [-> | ->]; reflexivity. }
  rewrite Hhandle. rewrite <- Hk.
  cbn [fst snd close add_uploads connect questions storage].
  repeat split. rewrite length_app. reflexivity.
Qed.

Lemma upload_failure_aborts_witness :
  exists st w1,
    for_each [DataItem.mk 1 "aGVsbG8=" "text"] (process_item env_upload_none
      (uuid4 env_upload_none)) (1, []) (connect world0) = (Ok st, w1) /\
    fst (handle env_upload_none submission_example world0) =
      JSONResponse 500
        (Detail "Error uploading image: 'NoneType' object is not subscriptable") /\
    questions (snd (handle env_upload_none submission_example world0)) = [] /\
    storage (snd (handle env_upload_none submission_example world0)) =
      [("3f2b8c1e-0d4a-4e6b-9a57-1c2d3e4f5a6b_1.png", list_byte_of_string "hello")].
Proof.
  do 2 eexists. split; [vm_compute; reflexivity|].
  edestruct (upload_failure_aborts env_upload_none submission_example world0
               [DataItem.mk 1 "aGVsbG8=" "text"] (DataItem.mk 2 "aGVsbG8=" "image") []
               (list_byte_of_string "hello") "'NoneType' object is not subscriptable")
    as (Hr & Hq & Hs & _).
  - reflexivity.
  - reflexivity.
  - reflexivity.
  - vm_compute. reflexivity.
  - right. reflexivity.
  - split; [exact Hr|]. split; [exact Hq|]. rewrite Hs. reflexivity.
Defined.



Lemma key_taken_question_id id question_id rows :
  In question_id (map Row.question_id rows) -> key_taken id question_id rows = true.
Proof.
  unfold key_taken. intros H. apply in_map_iff in H. destruct H as (r & Hr & Hin).
  apply existsb_exists. exists r. split; [exact Hin|].
  rewrite Hr, String.eqb_refl. apply orb_true_r.
Qed.

(** X8.  When the UUID drawn for a request is the [question_id] of a row of
    the table, the insert is refused: with [rollback] going through, the
    answer is a 500 whose detail is [Error inserting record: ] followed by
    the text of the server's error; the table is unchanged, and the objects
    uploaded for the request stay in the bucket. *)
Theorem duplicate_question_id_refused env submission w st w1 :
  for_each (Submission.data submission) (process_item env (uuid4 env)) (1, [])
           (connect w) = (Ok st, w1) ->
  execute_fault env = None ->
  rollback_fault env = None ->
  In (uuid4 env) (map Row.question_id (questions w)) ->
  let result := handle env submission w in
  fst result = JSONResponse 500 (Detail ("Error inserting record: " ++ refusal env)) /\
  questions (snd result) = questions w /\
  storage (snd result) = storage w1.
Proof.
  intros Hrun He Hr Hin result. subst result.
  destruct (for_each_ok _ _ _ _ _ _ _ _ Hrun) as (out & ups & Hp & -> & ->).
  unfold handle. rewrite create_submission_unfold, Hrun, insert_record_cases.
  cbn zeta. cbn [add_uploads connect questions txn questions_id_seq snd].
  rewrite app_nil_r.
  rewrite He, (key_taken_question_id _ _ _ Hin). unfold insert_failure. rewrite Hr.
  repeat split.
Qed.

Lemma duplicate_question_id_refused_witness :
  let w := snd (handle env_ok submission_text world0) in
  In (uuid4 env_ok) (map Row.question_id (questions w)) /\
  detail_string (fst (handle env_ok submission_example w)) =
    Some ("Error inserting record: " ++ refusal_example) /\
  status (fst (handle env_ok submission_example w)) = 500 /\
  questions (snd (handle env_ok submission_example w)) = questions w.
Proof.
  cbn zeta.
  assert (Hin : In (uuid4 env_ok)
                   (map Row.question_id
                        (questions (snd (handle env_ok submission_text world0)))))
    by (left; reflexivity).
  split; [exact Hin|].
  edestruct (duplicate_question_id_refused env_ok submission_example
               (snd (handle env_ok submission_text world0)))
    as (Hr & Hq & _).
  - vm_compute. reflexivity.
  - reflexivity.
  - reflexivity.
  - exact Hin.
  - rewrite Hr. split; [reflexivity|]. split; [reflexivity|exact Hq].
Defined.

(** X9.  A request is answered 200 exactly when every image item decodes,
    is uploaded with a truthy result and gets its URL, and the insert goes
    through: nothing else makes a request succeed, and nothing else is
    needed. *)
Theorem success_iff env submission w :
  status (fst (handle env submission w)) = 200 <->
  (exists out ups, processed env (uuid4 env) 1 (Submission.data submission) out ups) /\
  persistence_available env w.
Proof.
  split.
  - intros H. destruct (handle_200 _ _ _ H) as (out & ups & Hp & Hav & _). eauto.
  - intros [(out & ups & Hp) Hav]. now rewrite (handle_ok _ _ _ _ _ Hp Hav).
Qed.

(** X10.  A submission without image items never calls the object store:
    the bucket is untouched, and the answer and the world after the request
    are the same whatever the store would have done. *)
Theorem text_only_ignores_store env submission w upload' get_public_url' :
  images (Submission.data submission) = [] ->
  storage (snd (handle env submission w)) = storage w /\
  handle (with_store env upload' get_public_url') submission w = handle env submission w.
Proof.
  intros Hnone.
  assert (Hp : forall env', processed env' (uuid4 env) 1 (Submission.data submission)
                              (map passthrough (Submission.data submission)) []).
  { intros env'. revert Hnone. unfold images. generalize 1.
    induction (Submission.data submission) as [|item items IH]; intros c; simpl.
    - constructor.
    - destruct (is_image item) eqn:Himg; [discriminate|].
      intros H. constructor; auto. }
  split.
  - unfold handle. rewrite create_submission_unfold.
    rewrite (processed_run _ _ _ _ _ _ (Hp env)).
    pose proof (insert_record_frame env submission
                  (snd (1 + Z.of_nat (@List.length (string * list byte) []),
                        ([] ++ map passthrough (Submission.data submission))%list))
                  (add_uploads (connect w) [])) as (Hs & _).
    cbn zeta in Hs.
    destruct (insert_record _ _ _) as [[id|e] w2]; cbn [snd] in *;
      unfold close; cbn [storage]; rewrite Hs; apply app_nil_r.
  - unfold handle. rewrite !create_submission_unfold.
    change (uuid4 (with_store env upload' get_public_url')) with (uuid4 env).
    rewrite (processed_run _ _ _ _ _ _ (Hp env)).
    rewrite (processed_run _ _ _ _ _ _ (Hp (with_store env upload' get_public_url'))).
    rewrite !insert_record_cases. reflexivity.
Qed.

Lemma text_only_ignores_store_witness :
  images (Submission.data submission_text) = [] /\
  handle env_upload_down submission_text world0 = handle env_ok submission_text world0 /\
  status (fst (handle env_upload_down submission_text world0)) = 200.
Proof.
  split; [reflexivity|].
  destruct (text_only_ignores_store env_ok submission_text world0
              (upload env_upload_down) (get_public_url env_upload_down) eq_refl)
    as (_ & Heq).
  split; [exact Heq|reflexivity].
Defined.

(* ------------------------------------------------------------------------- *)
(** ** Object names within a request                                         *)
(* ------------------------------------------------------------------------- *)

Lemma str_int_inj a b : str_int a = str_int b -> a = b.
Proof.
  unfold str_int. intros H.
  assert (Hnn : forall z, Z.to_int z <> Decimal.Pos Decimal.Nil /\
                          Z.to_int z <> Decimal.Neg Decimal.Nil).
  { intros [|p|p]; simpl; split; try discriminate;
      intros [= Hp]; now apply (DecimalPos.Unsigned.to_uint_nonnil p). }
  assert (Hint : Z.to_int a = Z.to_int b).
  { pose proof (NilZero.isi (Z.to_int a) (proj1 (Hnn a)) (proj2 (Hnn a))) as Ha.
    pose proof (NilZero.isi (Z.to_int b) (proj1 (Hnn b)) (proj2 (Hnn b))) as Hb.
    rewrite H in Ha. rewrite Ha in Hb. now injection Hb. }
  rewrite <- (DecimalZ.of_to a), <- (DecimalZ.of_to b). now rewrite Hint.
Qed.

Lemma append_inv_head (p x y : string) : p ++ x = p ++ y -> x = y.
Proof. induction p as [|c p IH]; simpl; [auto|]. intros [= H]. auto. Qed.

Lemma append_length (x y : string) :
  String.length (x ++ y) = (String.length x + String.length y)%nat.
Proof. induction x as [|c x IH]; simpl; [reflexivity|]. now rewrite IH. Qed.

Lemma append_inv_tail (s x y : string) : x ++ s = y ++ s -> x = y.
Proof.
  revert y. induction x as [|c x IH]; intros [|d y] H; simpl in H.
  - reflexivity.
  - apply (f_equal String.length) in H. simpl in H. rewrite append_length in H. lia.
  - apply (f_equal String.length) in H. simpl in H. rewrite append_length in H. lia.
  - injection H as -> H. f_equal. auto.
Qed.

Lemma object_name_inj u a b : object_name u a = object_name u b -> a = b.
Proof.
  unfold object_name. intros H.
  apply append_inv_head in H. apply (append_inv_head "_") in H.
  apply append_inv_tail in H. now apply str_int_inj.
Qed.

(** X11.  Within one request no two upload calls carry the same object
    name, however the request ends. *)
Theorem upload_names_distinct env submission w :
  exists ups,
    storage (snd (handle env submission w)) = (storage w ++ ups)%list /\
    NoDup (map fst ups).
Proof.
  assert (Hnames : forall n, NoDup (map (fun k => object_name (uuid4 env) (1 + Z.of_nat k))
                                        (seq 0 n))).
  { intros n. apply Finite.Injective_map_NoDup; [|apply seq_NoDup].
    intros a b H. apply object_name_inj in H. lia. }
  unfold handle. rewrite create_submission_unfold.
  destruct (for_each_partial env (uuid4 env) (Submission.data submission) 1 []
              (connect w)) as (ups & Hw & Hn & _).
  exists ups. split; [|rewrite Hn; apply Hnames].
  destruct (for_each _ _ _ (connect w)) as [[st|e] w1]; cbn [snd] in Hw; subst w1.
  - pose proof (insert_record_frame env submission (snd st)
                  (add_uploads (connect w) ups)) as (Hs & _).
    cbn zeta in Hs.
    destruct (insert_record _ _ _) as [[id|e] w2]; cbn [snd] in *;
      unfold close; cbn [storage]; exact Hs.
  - reflexivity.
Qed.

(* ------------------------------------------------------------------------- *)
(** ** Requests one after another                                            *)
(* ------------------------------------------------------------------------- *)

Lemma key_taken_false_notin id question_id rows :
  key_taken id question_id rows = false ->
  ~ In id (map Row.id rows) /\ ~ In question_id (map Row.question_id rows).
Proof.
  unfold key_taken. induction rows as [|r rows IH]; simpl; intros H; [tauto|].
  apply orb_false_elim in H. destruct H as [Hr Hrows].
  apply orb_false_elim in Hr. destruct Hr as [Hid Hq].
  apply Z.eqb_neq in Hid. apply String.eqb_neq in Hq.
  destruct (IH Hrows). split; intros [H'|H']; auto.
Qed.

(** The table after a request: as before, or with one row under keys that
    were free, the [id] being the value of the sequence. *)
Lemma handle_table env submission w :
  let w' := snd (handle env submission w) in
  questions_id_seq w <= questions_id_seq w' /\
  (questions w' = questions w \/
   exists row,
     questions w' = (questions w ++ [row])%list /\
     Row.id row = questions_id_seq w /\
     Row.question_id row = uuid4 env /\
     questions_id_seq w' = questions_id_seq w + 1 /\
     key_taken (questions_id_seq w) (uuid4 env) (questions w) = false).
Proof.
  cbn zeta. unfold handle. rewrite create_submission_unfold.
  destruct (for_each_partial env (uuid4 env) (Submission.data submission) 1 []
              (connect w)) as (ups & Hw & _).
  destruct (for_each _ _ _ (connect w)) as [[st|e] w1]; cbn [snd] in Hw; subst w1.
  - rewrite insert_record_cases. cbn zeta.
    cbn [add_uploads connect questions txn questions_id_seq].
    rewrite app_nil_r.
    destruct (execute_fault env); [cbn; split; [lia|auto]|].
    destruct (key_taken _ _ _) eqn:Hkey; [cbn; split; [lia|auto]|].
    destruct (commit_fault env); [cbn; split; [lia|auto]|].
    destruct (fetchone_fault env); [|destruct (print_fault env)];
      cbn; (split; [lia|]); right; eexists; repeat split.
  - cbn. split; [lia|auto].
Qed.

Lemma serve_cons env submission rest w :
  serve ((env, submission) :: rest) w =
  (fst (handle env submission w) :: fst (serve rest (snd (handle env submission w))),
   snd (serve rest (snd (handle env submission w)))).
Proof.
  cbn [serve]. destruct (handle env submission w) as [r w1]. cbn [fst snd].
  destruct (serve rest w1) as [rs w2]. reflexivity.
Qed.

(** X12.  Whatever requests are handled and however each ends, the two keys
    of the table stay free of repetition: no two rows share an [id], no two
    rows share a [question_id]. *)
Theorem serve_keeps_keys_unique requests : forall w,
  keys_unique (questions w) ->
  keys_unique (questions (snd (serve requests w))).
Proof.
  induction requests as [|[env submission] rest IH]; intros w Hw; [exact Hw|].
  rewrite serve_cons. cbn [snd]. apply IH.
  destruct (handle_table env submission w)
    as (_ & [Hq|(row & Hq & Hi & Hu & _ & Hkey)]);
    rewrite Hq; [exact Hw|].
  destruct (key_taken_false_notin _ _ _ Hkey) as [Hid Hqid].
  destruct Hw as [Hids Hqids]. unfold keys_unique. rewrite !map_app. simpl.
  rewrite Hi, Hu.
  split;
    (apply NoDup_app;
     [assumption | constructor; [intros []|constructor] | intros a Ha [<-|[]]; auto]).
Qed.

Lemma serve_keeps_keys_unique_witness :
  keys_unique (questions world0) /\
  keys_unique
    (questions (snd (serve [(env_ok, submission_text); (env_ok, submission_example);
                            (env_ok2, submission_mixed)] world0))) /\
  List.length
    (questions (snd (serve [(env_ok, submission_text); (env_ok, submission_example);
                            (env_ok2, submission_mixed)] world0))) = 2%nat.
Proof.
  assert (H0 : keys_unique (questions world0)) by (split; constructor).
  split; [exact H0|]. split; [|reflexivity].
  exact (serve_keeps_keys_unique _ world0 H0).
Defined.

(** X13.  When every [id] of the table is below the sequence, this stays so
    whatever requests are handled, and the sequence never moves back. *)
Theorem serve_keeps_serial_ahead requests : forall w,
  serial_ahead w ->
  serial_ahead (snd (serve requests w)) /\
  questions_id_seq w <= questions_id_seq (snd (serve requests w)).
Proof.
  induction requests as [|[env submission] rest IH]; intros w Hw;
    [split; [exact Hw|cbn; lia]|].
  rewrite serve_cons. cbn [snd].
  assert (H1 : serial_ahead (snd (handle env submission w)) /\
               questions_id_seq w <= questions_id_seq (snd (handle env submission w))).
  { destruct (handle_table env submission w)
      as (Hseq & [Hq|(row & Hq & Hi & _ & Hs & _)]); (split; [|exact Hseq]);
      unfold serial_ahead in *; rewrite Hq.
    - eapply Forall_impl; [|exact Hw]. cbn beta. intros r Hr. lia.
    - apply Forall_app. split.
      + eapply Forall_impl; [|exact Hw]. cbn beta. intros r Hr. lia.
      + constructor; [lia|constructor]. }
  destruct H1 as [Ha Hs]. destruct (IH _ Ha) as [Ha' Hs']. split; [exact Ha'|lia].
Qed.

Lemma serve_keeps_serial_ahead_witness :
  serial_ahead world0 /\
  serial_ahead (snd (serve [(env_ok, submission_text); (env_fetch_fails, submission_empty)]
                           world0)) /\
  questions_id_seq (snd (serve [(env_ok, submission_text);
                                (env_fetch_fails, submission_empty)] world0)) = 3.
Proof.
  assert (H0 : serial_ahead world0) by constructor.
  split; [exact H0|]. split; [|reflexivity].
  exact (proj1 (serve_keeps_serial_ahead _ world0 H0)).
Defined.

(** A request answered with a [submission_id]: the id is the value of the
    sequence, it was free, and the row under it is now in the table. *)
Lemma handle_created env submission w c body :
  fst (handle env submission w) = JSONResponse c (SubmissionCreated body) ->
  submission_id body = questions_id_seq w /\
  ~ In (questions_id_seq w) (map Row.id (questions w)) /\
  In (questions_id_seq w) (map Row.id (questions (snd (handle env submission w)))).
Proof.
  intros Hr.
  assert (H200 : status (fst (handle env submission w)) = 200).
  { revert Hr. unfold handle.
    destruct (create_submission env submission (connect w)) as [[b|[c' d|m]] w1];
      cbn; [reflexivity|discriminate|discriminate]. }
  destruct (handle_200 _ _ _ H200) as (out & ups & _ & Hav & Hok).
  rewrite Hok in Hr |- *. cbn [fst snd world_after questions] in *.
  injection Hr as _ <-. split; [reflexivity|].
  destruct Hav as (_ & _ & _ & _ & Hkey).
  split; [exact (proj1 (key_taken_false_notin _ _ _ Hkey))|].
  rewrite map_app. apply in_or_app. right. now left.
Qed.

Lemma serve_grows requests : forall w,
  exists rows, questions (snd (serve requests w)) = (questions w ++ rows)%list.
Proof.
  induction requests as [|[env submission] rest IH]; intros w.
  - exists []. cbn. now rewrite app_nil_r.
  - rewrite serve_cons. cbn [snd].
    destruct (IH (snd (handle env submission w))) as [rows ->].
    destruct (handle_table env submission w) as (_ & [->|(record & -> & _)]).
    + eauto.
    + rewrite <- app_assoc. eauto.
Qed.

Lemma returned_ids_new requests : forall w id,
  In id (returned_ids (fst (serve requests w))) ->
  In id (map Row.id (questions (snd (serve requests w)))) /\
  ~ In id (map Row.id (questions w)).
Proof.
  induction requests as [|[env submission] rest IH]; intros w id Hin;
    [destruct Hin|].
  rewrite serve_cons in Hin |- *. cbn [fst snd] in *.
  unfold returned_ids in Hin. cbn [flat_map] in Hin. apply in_app_or in Hin.
  destruct Hin as [Hin|Hin].
  - destruct (fst (handle env submission w)) as [c [body|d|]|c t] eqn:Hr;
      cbn in Hin; try contradiction.
    destruct Hin as [<-|[]].
    destruct (handle_created _ _ _ _ _ Hr) as (-> & Hnot & Hnow).
    split; [|exact Hnot].
    destruct (serve_grows rest (snd (handle env submission w))) as [rows ->].
    rewrite map_app. apply in_or_app. now left.
  - destruct (IH _ _ Hin) as [Hfin Hnot]. split; [exact Hfin|].
    intros Hw. apply Hnot.
    destruct (handle_table env submission w) as (_ & [->|(record & -> & _)]);
      [exact Hw|].
    rewrite map_app. apply in_or_app. now left.
Qed.

(** X14.  Over any run of requests, no [submission_id] is handed out twice,
    and each one handed out is the [id] of a row that is in the table at the
    end and was not there at the start. *)
Theorem served_ids_distinct requests w :
  let result := serve requests w in
  NoDup (returned_ids (fst result)) /\
  forall id,
    In id (returned_ids (fst result)) ->
    In id (map Row.id (questions (snd result))) /\
    ~ In id (map Row.id (questions w)).
Proof.
  cbn zeta. split; [|apply returned_ids_new].
  revert w. induction requests as [|[env submission] rest IH]; intros w;
    [constructor|].
  rewrite serve_cons. cbn [fst]. unfold returned_ids. cbn [flat_map].
  fold (returned_ids (fst (serve rest (snd (handle env submission w))))).
  destruct (fst (handle env submission w)) as [c [body|d|]|c t] eqn:Hr;
    cbn [app]; try apply IH.
  constructor; [|apply IH].
  intros Hin. apply returned_ids_new in Hin. destruct Hin as [_ Hnot].
  destruct (handle_created _ _ _ _ _ Hr) as (Hid & _ & Hnow).
  rewrite Hid in Hnot. auto.
Qed.

(** X15.  In a table whose [id]s all came from the sequence, the primary
    key is never what refuses an insert: when the items go through and the
    collaborators of the insert answer, a UUID that is new to the table is
    enough for the request to be answered 200 with the value of the
    sequence as [submission_id]. *)
Theorem fresh_uuid_suffices env submission w st w1 :
  for_each (Submission.data submission) (process_item env (uuid4 env)) (1, [])
           (connect w) = (Ok st, w1) ->
  execute_fault env = None -> commit_fault env = None ->
  fetchone_fault env = None -> print_fault env = None ->
  serial_ahead w ->
  ~ In (uuid4 env) (map Row.question_id (questions w)) ->
  fst (handle env submission w) =
    JSONResponse 200
      (SubmissionCreated (mkBody "Submission created successfully" (questions_id_seq w))).
Proof.
  intros Hrun He Hc Hf Hp Hserial Hfresh.
  destruct (for_each_ok _ _ _ _ _ _ _ _ Hrun) as (out & ups & Hproc & _ & _).
  rewrite (handle_ok _ _ _ _ _ Hproc); [reflexivity|].
  repeat split; try assumption.
  unfold key_taken. apply not_true_is_false. intros Hex.
  apply existsb_exists in Hex. destruct Hex as (r & Hin & Hr).
  apply orb_true_iff in Hr. destruct Hr as [Hr|Hr].
  - apply Z.eqb_eq in Hr. unfold serial_ahead in Hserial.
    rewrite Forall_forall in Hserial. specialize (Hserial r Hin). lia.
  - apply String.eqb_eq in Hr. apply Hfresh. rewrite <- Hr. now apply in_map.
Qed.

Lemma fresh_uuid_suffices_witness :
  let w := snd (handle env_ok submission_text world0) in
  serial_ahead w /\
  ~ In (uuid4 env_ok2) (map Row.question_id (questions w)) /\
  fst (handle env_ok2 submission_example w) =
    JSONResponse 200 (SubmissionCreated (mkBody "Submission created successfully" 2)).
Proof.
  cbn zeta.
  assert (Hs : serial_ahead (snd (handle env_ok submission_text world0))).
  { constructor; [reflexivity|constructor]. }
  assert (Hn : ~ In (uuid4 env_ok2)
                    (map Row.question_id
                       (questions (snd (handle env_ok submission_text world0))))).
  { intros [H|[]]. discriminate H. }
  split; [exact Hs|]. split; [exact Hn|].
  eapply (fresh_uuid_suffices env_ok2 submission_example
            (snd (handle env_ok submission_text world0)));
    try reflexivity; try assumption.
Defined.

(* ------------------------------------------------------------------------- *)
(** ** The test on [type]                                                    *)
(* ------------------------------------------------------------------------- *)

Lemma lower_char_letter (c d : ascii) :
  (97 <= N_of_ascii d <= 122)%N ->
  lower_char c = d <-> c = d \/ c = ascii_of_N (N_of_ascii d - 32).
Proof.
  intros Hd. unfold lower_char.
  destruct ((65 <=? N_of_ascii c)%N && (N_of_ascii c <=? 90)%N) eqn:Hc.
  - apply andb_true_iff in Hc. destruct Hc as [H1 H2].
    apply N.leb_le in H1, H2. split.
    + intros <-. right.
      rewrite N_ascii_embedding by lia.
      replace (N_of_ascii c + 32 - 32)%N with (N_of_ascii c) by lia.
      now rewrite ascii_N_embedding.
    + intros [->| ->]; [lia|].
      rewrite N_ascii_embedding by lia.
      replace (N_of_ascii d - 32 + 32)%N with (N_of_ascii d) by lia.
      apply ascii_N_embedding.
  - split; [auto|]. intros [H|H]; [exact H|]. exfalso.
    subst c. rewrite N_ascii_embedding in Hc by lia.
    apply andb_false_iff in Hc. destruct Hc as [Hc|Hc]; apply N.leb_gt in Hc; lia.
Qed.

(** X18.  An item is routed to the store exactly when its [type] is the
    word [image] written in any mix of upper and lower case: five letters,
    nothing before or after them. *)
Theorem is_image_iff item :
  is_image item = true <->
  exists a b c d e,
    DataItem.type item =
      String a (String b (String c (String d (String e EmptyString)))) /\
    (a = "i" \/ a = "I")%char /\ (b = "m" \/ b = "M")%char /\
    (c = "a" \/ c = "A")%char /\ (d = "g" \/ d = "G")%char /\
    (e = "e" \/ e = "E")%char.
Proof.
  unfold is_image. rewrite String.eqb_eq.
  assert (Hl : forall x d, (97 <= N_of_ascii d <= 122)%N ->
                 lower_char x = d -> x = d \/ x = ascii_of_N (N_of_ascii d - 32))
    by (intros x d Hd; apply (lower_char_letter x d Hd)).
  assert (Hr : forall x d, (97 <= N_of_ascii d <= 122)%N ->
                 x = d \/ x = ascii_of_N (N_of_ascii d - 32) -> lower_char x = d)
    by (intros x d Hd; apply (lower_char_letter x d Hd)).
  split.
  - destruct (DataItem.type item) as [|a [|b [|c [|d [|e [|f t]]]]]];
      cbn [lower]; intros H; try discriminate.
    injection H as Ha Hb Hc Hd He.
    exists a, b, c, d, e. split; [reflexivity|].
    repeat split; apply Hl; (assumption || (cbn; lia)).
  - intros (a & b & c & d & e & -> & Ha & Hb & Hc & Hd & He). cbn [lower].
    repeat f_equal; apply Hr; (assumption || (cbn; lia)).
Qed.
